(** * Parsers of the ELT pipeline: a shallow embedding of
      [elt_project/assets/parsers.py]

    The development follows the Python module top to bottom:
    - Python values, strings (sequences of code points) and exceptions;
    - a state-and-exception monad for the methods that touch the file
      system or the factory's dictionary;
    - the part of [pandas] the module calls ([read_csv], [select_dtypes],
      [fillna], [applymap], [to_excel]);
    - [CsvParser], [CsvToExcelConverterParser], [ParserFactory] and
      [stream_excel_to_csv];
    - the properties of the design document, one theorem each. *)

From Stdlib Require Import ZArith NArith Ascii String Bool Lia.
From stdpp Require Import gmap list.

Local Open Scope N_scope.

(** ** Python strings

    A Python [str] is a finite sequence of Unicode code points. *)

Abbreviation pystr := (list N) (only parsing).

Fixpoint py (s : string) : pystr :=
  match s with
  | EmptyString => []
  | String a rest => N_of_ascii a :: py rest
  end.

(** ** Python values that occur in cells

    [PyFloat] keeps the literal it was read from: no property below depends
    on the binary value of a float.  [PyNaN] is [float('nan')], the marker
    pandas uses for a missing cell; [PyNone] is what openpyxl yields for an
    empty spreadsheet cell. *)

Inductive pyval :=
| PyNone
| PyStr (s : pystr)
| PyInt (z : Z)
| PyFloat (literal : pystr)
| PyBool (b : bool)
| PyNaN
| PyDatetime (iso : pystr).

#[export] Instance pyval_eq_dec : EqDecision pyval.
Proof. solve_decision. Defined.

Definition isinstance_str (v : pyval) : bool :=
  match v with PyStr _ => true | _ => false end.

Definition is_not_None (v : pyval) : bool :=
  match v with PyNone => false | _ => true end.

(** ** Exceptions *)

Inductive exn :=
| ValueError (msg : pystr)
| TypeError (msg : pystr)
| AttributeError (msg : pystr)
| FileNotFoundError (path : pystr)
| OSError (msg : pystr).

(** ** Computations with state and exceptions *)

Inductive outcome (A : Type) :=
| Ret (a : A)
| Raise (e : exn).
Arguments Ret {A} a.
Arguments Raise {A} e.

Definition returned {A} (r : outcome A) : Prop := exists a, r = Ret a.

Definition M (St A : Type) : Type := St -> outcome A * St.

Definition ret {St A} (a : A) : M St A := fun s => (Ret a, s).

Definition raise {St A} (e : exn) : M St A := fun s => (Raise e, s).

Definition bind {St A B} (c : M St A) (k : A -> M St B) : M St B :=
  fun s =>
    match c s with
    | (Ret a, s1) => k a s1
    | (Raise e, s1) => (Raise e, s1)
    end.

Definition modify {St} (f : St -> St) : M St unit := fun s => (Ret tt, f s).

Definition gets {St A} (f : St -> A) : M St A := fun s => (Ret (f s), s).

(** [try: body finally: handler].  The handler always runs; an exception of
    the handler replaces whatever the body did, otherwise the body's result
    or exception is what leaves the statement. *)
Definition try_finally {St A} (body : M St A) (handler : M St unit) : M St A :=
  fun s =>
    match body s with
    | (r, s1) =>
        match handler s1 with
        | (Ret _, s2) => (r, s2)
        | (Raise e, s2) => (Raise e, s2)
        end
    end.

Declare Scope py_scope.
Delimit Scope py_scope with py.
Notation "x <- c1 ;; c2" := (bind c1 (fun x => c2))
  (at level 100, c1 at next level, right associativity) : py_scope.
Notation "c1 ;; c2" := (bind c1 (fun _ => c2))
  (at level 100, right associativity) : py_scope.

(** ** Classes and instances

    What the factory observes of a class object: its name, the answer of
    [issubclass(cls, Parser)], and what calling it without arguments does
    ([None]: an instance is returned; [Some e]: the call raises [e], as for
    a class that still has abstract methods). *)

Record pyclass := {
  cls_name : pystr;
  cls_is_parser : bool;
  cls_call_raises : option exn
}.

Record instance := InstanceOf { inst_class : pyclass }.

(** [class Parser(ABC)] with the abstract method [parse]. *)
Definition Parser : pyclass :=
  {| cls_name := py "Parser";
     cls_is_parser := true;
     cls_call_raises :=
       Some (TypeError (py "Can't instantiate abstract class Parser")) |}.

Definition concrete_parser (name : string) : pyclass :=
  {| cls_name := py name; cls_is_parser := true; cls_call_raises := None |}.

Definition CsvParser : pyclass := concrete_parser "CsvParser".
Definition PsvParser : pyclass := concrete_parser "PsvParser".
Definition ExcelParser : pyclass := concrete_parser "ExcelParser".
Definition CsvToExcelConverterParser : pyclass :=
  concrete_parser "CsvToExcelConverterParser".

Definition issubclass_Parser (c : pyclass) : bool := cls_is_parser c.

(** [cls()] *)
Definition call_class (c : pyclass) : outcome instance :=
  match cls_call_raises c with
  | Some e => Raise e
  | None => Ret (InstanceOf c)
  end.

(** A constructor that produces a value with the [Parser] capability: the
    call returns, and what it returns is a [Parser]. *)
Definition conforming (c : pyclass) : Prop :=
  exists i, call_class c = Ret i /\ cls_is_parser (inst_class i) = true.

(** ** ParserFactory *)

Record ParserFactory := { _parsers : gmap pystr pyclass }.

Definition InvalidParserType : exn :=
  ValueError (py "Registered class must be a subclass of Parser").

Definition UnknownFormat (file_type : pystr) : exn :=
  ValueError (py "No parser registered for file type: " ++ file_type).

(** [ParserFactory()] *)
Definition ParserFactory_init : ParserFactory := {| _parsers := ∅ |}.

Section Factory.

(** [str.lower].  Its Unicode tables are not part of the module; the
    registry only relies on lowering twice being lowering once. *)
Variable lower : pystr -> pystr.
Hypothesis lower_idem : forall s, lower (lower s) = lower s.

Definition register_parser (file_type : pystr) (parser_class : pyclass)
  : M ParserFactory unit :=
  if negb (issubclass_Parser parser_class)
  then raise InvalidParserType
  else modify (fun self =>
                 {| _parsers := <[lower file_type := parser_class]> (_parsers self) |}).

(** A class object is truthy, so [if not parser_class] is taken exactly
    when [dict.get] returned [None]. *)
Definition get_parser (file_type : pystr) : M ParserFactory instance :=
  (parser_class <- gets (fun self => _parsers self !! lower file_type) ;;
   match parser_class with
   | None => raise (UnknownFormat file_type)
   | Some cls => fun self => (call_class cls, self)
   end)%py.

(** Module initialisation: the four built-in registrations. *)
Definition register_defaults : M ParserFactory unit :=
  (register_parser (py "csv") CsvParser ;;
   register_parser (py "psv") PsvParser ;;
   register_parser (py "excel") ExcelParser ;;
   register_parser (py "csv_to_excel") CsvToExcelConverterParser)%py.

Definition parser_factory : ParserFactory := snd (register_defaults ParserFactory_init).

Definition keys_lowercase (self : ParserFactory) : Prop :=
  forall k c, _parsers self !! k = Some c -> lower k = k.

End Factory.

(** [str.lower] on the ASCII repertoire, where the format tags live. *)
Definition ascii_lower_char (c : N) : N :=
  if (65 <=? c) && (c <=? 90) then c + 32 else c.

Definition ascii_lower (s : pystr) : pystr := map ascii_lower_char s.

(** ** The part of pandas the module calls

    pandas is a dependency, not part of the module.  The definitions of this
    section transcribe the behaviour of [pandas.read_csv] with the default
    C engine on a file that is already split into fields (pandas's
    tokenizer, quoting and header handling are not modelled): per column the
    converters are tried in the order int64, float64, bool, object
    ([TextReader._convert_tokens]); every converter first looks the field up
    in the set of missing-value markers ([na_filter=True],
    [keep_default_na=True]); a bool or integer column that met a missing
    field is upcast afterwards ([_maybe_upcast]). *)

Inductive dtype := int64 | uint64 | float64 | bool_ | object_.

#[export] Instance dtype_eq_dec : EqDecision dtype.
Proof. solve_decision. Defined.

Record column := {
  col_name : pystr;
  col_dtype : dtype;
  col_values : list pyval
}.

Definition DataFrame := list column.

(** A delimited file after tokenizing: the header with, for each column, the
    fields of the rows below it. *)
Definition csv_fields := list (pystr * list pystr).

(** [pandas._libs.parsers.STR_NA_VALUES] *)
Definition STR_NA_VALUES : list pystr :=
  map py [ "-1.#IND"; "1.#QNAN"; "1.#IND"; "-1.#QNAN"; "#N/A N/A"; "#N/A";
           "N/A"; "n/a"; "NA"; "<NA>"; "#NA"; "NULL"; "null"; "NaN"; "-NaN";
           "nan"; "-nan"; "None"; "" ]%string.

Definition str_in (s : pystr) (l : list pystr) : bool := bool_decide (s ∈ l).

Definition is_na (field : pystr) : bool := str_in field STR_NA_VALUES.

Definition is_digit (c : N) : bool := (48 <=? c) && (c <=? 57).
Definition is_space (c : N) : bool := (c =? 32) || ((9 <=? c) && (c <=? 13)).

Fixpoint skip_spaces (s : pystr) : pystr :=
  match s with
  | c :: rest => if is_space c then skip_spaces rest else s
  | [] => []
  end.

Fixpoint span_digits (s : pystr) : pystr * pystr :=
  match s with
  | c :: rest =>
      if is_digit c
      then let '(ds, tl) := span_digits rest in (c :: ds, tl)
      else ([], s)
  | [] => ([], [])
  end.

Definition digits_value (ds : pystr) : Z :=
  fold_left (fun acc c => (10 * acc + (Z.of_N c - 48))%Z) ds 0%Z.

(** [str_to_int64] without its range check: blanks, a sign, at least one
    digit, blanks, end of field.  The boolean is the sign. *)
Definition int_literal (field : pystr) : option (bool * Z) :=
  let s := skip_spaces field in
  let '(neg, s) :=
    match s with
    | 45 :: rest => (true, rest)
    | 43 :: rest => (false, rest)
    | _ => (false, s)
    end in
  let '(ds, rest) := span_digits s in
  match ds, skip_spaces rest with
  | _ :: _, [] => Some (neg, digits_value ds)
  | _, _ => None
  end.

Definition INT64_MAX : Z := 9223372036854775807.
Definition INT64_MIN : Z := -9223372036854775808.
Definition UINT64_MAX : Z := 18446744073709551615.

Inductive scan (A : Type) :=
| ScanOk (cells : list A)
| ScanInvalid
| ScanOverflow.
Arguments ScanOk {A} cells.
Arguments ScanInvalid {A}.
Arguments ScanOverflow {A}.

Definition scan_cons {A} (a : A) (r : scan A) : scan A :=
  match r with
  | ScanOk cells => ScanOk (a :: cells)
  | other => other
  end.

(** [_try_int64]: the first field that is not an integer decides how the
    attempt ends. *)
Fixpoint try_int64 (fields : list pystr) : scan (option Z) :=
  match fields with
  | [] => ScanOk []
  | f :: rest =>
      if is_na f then scan_cons None (try_int64 rest)
      else match int_literal f with
           | None => ScanInvalid
           | Some (neg, n) =>
               let v := if neg then (- n)%Z else n in
               if (INT64_MIN <=? v)%Z && (v <=? INT64_MAX)%Z
               then scan_cons (Some v) (try_int64 rest)
               else ScanOverflow
           end
  end.

(** [_try_uint64]: [Some z] is a magnitude, [None] a missing field; a minus
    sign is remembered, not refused. *)
Record uint_state := { seen_sint : bool; seen_uint : bool; seen_null : bool }.

Fixpoint try_uint64 (fields : list pystr) (st : uint_state)
  : scan (option Z) * uint_state :=
  match fields with
  | [] => (ScanOk [], st)
  | f :: rest =>
      if is_na f
      then let '(r, st') := try_uint64 rest
                 {| seen_sint := seen_sint st; seen_uint := seen_uint st; seen_null := true |} in
           (scan_cons None r, st')
      else match int_literal f with
           | None => (ScanInvalid, st)
           | Some (true, _) =>
               let '(r, st') := try_uint64 rest
                     {| seen_sint := true; seen_uint := seen_uint st; seen_null := seen_null st |} in
               (scan_cons (Some 0%Z) r, st')
           | Some (false, n) =>
               if (UINT64_MAX <? n)%Z then (ScanOverflow, st)
               else
                 let '(r, st') := try_uint64 rest
                       {| seen_sint := seen_sint st;
                          seen_uint := seen_uint st || (INT64_MAX <? n)%Z;
                          seen_null := seen_null st |} in
                 (scan_cons (Some n) r, st')
           end
  end.

Definition uint64_conflict (st : uint_state) : bool :=
  seen_uint st && (seen_sint st || seen_null st).

(** The grammar [xstrtod] accepts when it must use up the whole field. *)
Definition float_literal (field : pystr) : bool :=
  let s := skip_spaces field in
  let s := match s with 45 :: rest | 43 :: rest => rest | _ => s end in
  let '(int_part, s) := span_digits s in
  let '(frac_part, s) :=
    match s with
    | 46 :: rest => span_digits rest
    | _ => ([], s)
    end in
  match int_part ++ frac_part with
  | [] => false
  | _ :: _ =>
      let s :=
        match s with
        | 101 :: rest | 69 :: rest =>
            let rest' := match rest with 45 :: r | 43 :: r => r | _ => rest end in
            match span_digits rest' with
            | (_ :: _, tl) => tl
            | ([], _) => s
            end
        | _ => s
        end in
      match skip_spaces s with [] => true | _ :: _ => false end
  end.

Definition ascii_upper_char (c : N) : N :=
  if (97 <=? c) && (c <=? 122) then c - 32 else c.

(** [strcasecmp(a, b) == 0] *)
Definition strcasecmp_eq (a b : pystr) : bool :=
  bool_decide (map ascii_upper_char a = map ascii_upper_char b).

Definition inf_word (field : pystr) : bool :=
  existsb (strcasecmp_eq field)
    (map py [ "inf"; "+inf"; "-inf"; "Infinity"; "+Infinity"; "-Infinity" ]%string).

(** [_try_double] *)
Fixpoint try_double (fields : list pystr) : option (list pyval) :=
  match fields with
  | [] => Some []
  | f :: rest =>
      if is_na f then cons PyNaN <$> try_double rest
      else if float_literal f || inf_word f then cons (PyFloat f) <$> try_double rest
      else None
  end.

(** [to_boolean] of the tokenizer: TRUE and FALSE in any letter case. *)
Definition to_boolean (field : pystr) : option bool :=
  if strcasecmp_eq field (py "TRUE") then Some true
  else if strcasecmp_eq field (py "FALSE") then Some false
  else None.

(** [_try_bool_flex_nogil]: the missing-value markers are looked up first,
    then [true_values], then [false_values], then [to_boolean]. *)
Fixpoint try_bool_flex (true_values false_values : list pystr) (fields : list pystr)
  : option (list (option bool)) :=
  match fields with
  | [] => Some []
  | f :: rest =>
      let cell :=
        if is_na f then Some None
        else if str_in f true_values then Some (Some true)
        else if str_in f false_values then Some (Some false)
        else Some <$> to_boolean f in
      match cell with
      | Some c => cons c <$> try_bool_flex true_values false_values rest
      | None => None
      end
  end.

(** [_string_convert] with the missing-value filter. *)
Definition string_convert (fields : list pystr) : list pyval :=
  map (fun f => if is_na f then PyNaN else PyStr f) fields.

(** [_string_convert] without the filter, for the overflow fall-back. *)
Definition string_convert_raw (fields : list pystr) : list pyval := map PyStr fields.

Definition has_none {A} (l : list (option A)) : bool :=
  existsb (fun o => match o with None => true | Some _ => false end) l.

Definition nullable {A} (f : A -> pyval) (o : option A) : pyval :=
  match o with Some a => f a | None => PyNaN end.

(** [_maybe_upcast] for integers: a column with a missing field becomes
    float64, its integers becoming floats. *)
Definition upcast_int (fields : list pystr) (cells : list (option Z)) : dtype * list pyval :=
  if has_none cells
  then (float64, map (fun f => if is_na f then PyNaN else PyFloat f) fields)
  else (int64, map (nullable PyInt) cells).

(** [_maybe_upcast] for booleans: a column with a missing field becomes an
    object column holding [True], [False] and [nan]. *)
Definition upcast_bool (cells : list (option bool)) : dtype * list pyval :=
  (if has_none cells then object_ else bool_, map (nullable PyBool) cells).

Definition convert_after_int (true_values false_values : list pystr) (fields : list pystr)
  : dtype * list pyval :=
  match try_double fields with
  | Some cells => (float64, cells)
  | None =>
      match try_bool_flex true_values false_values fields with
      | Some cells => upcast_bool cells
      | None => (object_, string_convert fields)
      end
  end.

(** [TextReader._convert_tokens] *)
Definition convert_tokens (true_values false_values : list pystr) (fields : list pystr)
  : dtype * list pyval :=
  match try_int64 fields with
  | ScanOk cells => upcast_int fields cells
  | ScanInvalid => convert_after_int true_values false_values fields
  | ScanOverflow =>
      match try_uint64 fields {| seen_sint := false; seen_uint := false; seen_null := false |} with
      | (ScanInvalid, _) => convert_after_int true_values false_values fields
      | (ScanOverflow, _) => (object_, string_convert_raw fields)
      | (ScanOk cells, st) =>
          if uint64_conflict st || seen_sint st
          then (object_, string_convert_raw fields)
          else (uint64, map (nullable PyInt) cells)
      end
  end.

(** [pd.read_csv(file, true_values=..., false_values=...)] on the fields. *)
Definition read_csv (true_values false_values : list pystr) (file : csv_fields) : DataFrame :=
  map (fun '(name, fields) =>
         let '(dt, cells) := convert_tokens true_values false_values fields in
         {| col_name := name; col_dtype := dt; col_values := cells |})
      file.

(** [df.select_dtypes(include='bool').columns] *)
Definition select_dtypes_bool_columns (df : DataFrame) : list pystr :=
  map col_name (filter (fun c => col_dtype c = bool_) df).

(** [pandas.isna] on a scalar: [nan] and [None]. *)
Definition isna (v : pyval) : bool :=
  match v with PyNaN | PyNone => true | _ => false end.

Fixpoint dict_get {V} (d : list (pystr * V)) (k : pystr) : option V :=
  match d with
  | [] => None
  | (k', v) :: rest => if bool_decide (k' = k) then Some v else dict_get rest k
  end.

(** [df.fillna(value_by_column, inplace=True)] *)
Definition fillna (value : list (pystr * pyval)) (df : DataFrame) : DataFrame :=
  map (fun c =>
         match dict_get value (col_name c) with
         | Some v =>
             {| col_name := col_name c; col_dtype := col_dtype c;
                col_values := map (fun x => if isna x then v else x) (col_values c) |}
         | None => c
         end) df.

(** [df.applymap(f)] *)
Definition applymap (f : pyval -> pyval) (df : DataFrame) : DataFrame :=
  map (fun c => {| col_name := col_name c; col_dtype := col_dtype c;
                   col_values := map f (col_values c) |}) df.

(** ** CsvParser *)

Definition CsvParser_true_values : list pystr :=
  map py [ "true"; "True"; "TRUE"; "1" ]%string.
Definition CsvParser_false_values : list pystr :=
  map py [ "false"; "False"; "FALSE"; "0"; "" ]%string.

(** The pass after [read_csv]: [{col: False for col in bool columns}]. *)
Definition fill_bool_columns (df : DataFrame) : DataFrame :=
  fillna (map (fun col => (col, PyBool false)) (select_dtypes_bool_columns df)) df.

(** [CsvParser.parse], on the fields of the file at [file_path]. *)
Definition CsvParser_parse (file : csv_fields) : DataFrame :=
  let df := read_csv CsvParser_true_values CsvParser_false_values file in
  fill_bool_columns df.

(** ** Paths: [os.path.splitext] (POSIX flavour) *)

Fixpoint rfind_from (c : N) (s : pystr) (i last : Z) : Z :=
  match s with
  | [] => last
  | x :: rest => rfind_from c rest (i + 1)%Z (if x =? c then i else last)
  end.

(** [s.rfind(c)], [-1] when [c] does not occur. *)
Definition rfind (c : N) (s : pystr) : Z := rfind_from c s 0%Z (-1)%Z.

Definition slice (s : pystr) (lo hi : Z) : pystr :=
  take (Z.to_nat (hi - lo)) (drop (Z.to_nat lo) s).

(** The extension starts at the last dot, provided the dot comes after the
    last separator and some character between them is not a dot. *)
Definition splitext (p : pystr) : pystr * pystr :=
  let sepIndex := rfind 47 p in
  let dotIndex := rfind 46 p in
  if (sepIndex <? dotIndex)%Z
     && existsb (fun x => negb (x =? 46)) (slice p (sepIndex + 1) dotIndex)
  then (take (Z.to_nat dotIndex) p, drop (Z.to_nat dotIndex) p)
  else (p, []).

(** ** The file system and the handles a call holds *)

Inductive row_event :=
| RowOk (row : list pyval)
| RowFail (e : exn).

(** An opened workbook: [wb.active] and what iterating [sheet.values]
    yields, a row or a reader failure at each step. *)
Record workbook := { wb_active : option (list row_event) }.

Inductive log_event :=
| LogStreaming (file_path : pystr)
| LogStandard (file_path : pystr)
| LogCompleted.

(** What the outside world answers: the content of the files a call reads,
    and whether an operation on the destination fails. *)
Record Env := {
  disk_csv : pystr -> outcome csv_fields;
  load_workbook : pystr -> outcome workbook;
  read_excel : pystr -> outcome DataFrame;
  open_error : pystr -> option exn;
  write_error : list (list pyval) -> list pyval -> option exn;
  to_excel_error : pystr -> DataFrame -> option exn
}.

Record World := {
  xlsx_files : gmap pystr DataFrame;
  text_files : gmap pystr (list (list pyval));
  open_workbooks : nat;
  open_files : nat;
  gc_collections : nat;
  log : list log_event
}.

Definition set_xlsx (f : gmap pystr DataFrame -> gmap pystr DataFrame) (w : World) : World :=
  {| xlsx_files := f (xlsx_files w); text_files := text_files w;
     open_workbooks := open_workbooks w; open_files := open_files w;
     gc_collections := gc_collections w; log := log w |}.

Definition set_text (f : gmap pystr (list (list pyval)) -> gmap pystr (list (list pyval)))
  (w : World) : World :=
  {| xlsx_files := xlsx_files w; text_files := f (text_files w);
     open_workbooks := open_workbooks w; open_files := open_files w;
     gc_collections := gc_collections w; log := log w |}.

Definition set_open_workbooks (f : nat -> nat) (w : World) : World :=
  {| xlsx_files := xlsx_files w; text_files := text_files w;
     open_workbooks := f (open_workbooks w); open_files := open_files w;
     gc_collections := gc_collections w; log := log w |}.

Definition set_open_files (f : nat -> nat) (w : World) : World :=
  {| xlsx_files := xlsx_files w; text_files := text_files w;
     open_workbooks := open_workbooks w; open_files := f (open_files w);
     gc_collections := gc_collections w; log := log w |}.

Definition set_gc (f : nat -> nat) (w : World) : World :=
  {| xlsx_files := xlsx_files w; text_files := text_files w;
     open_workbooks := open_workbooks w; open_files := open_files w;
     gc_collections := f (gc_collections w); log := log w |}.

Definition set_log (f : list log_event -> list log_event) (w : World) : World :=
  {| xlsx_files := xlsx_files w; text_files := text_files w;
     open_workbooks := open_workbooks w; open_files := open_files w;
     gc_collections := gc_collections w; log := f (log w) |}.

Definition lift_outcome {St A} (r : outcome A) : M St A := fun s => (r, s).

Definition raise_if {St} (e : option exn) : M St unit :=
  match e with Some x => raise x | None => ret tt end.

(** ** CsvToExcelConverterParser *)

(** The character class of [illegal_xml_chars_re], range by range as the
    pattern lists them. *)
Definition illegal_xml_chars_re : list (N * N) :=
  [ (0x00, 0x08); (0x0b, 0x0b); (0x0c, 0x0c); (0x0e, 0x1f); (0x7f, 0x84);
    (0x86, 0x9f); (0xfdd0, 0xfddf); (0xfffe, 0xfffe); (0xffff, 0xffff) ].

Definition class_matches (cls : list (N * N)) (c : N) : bool :=
  existsb (fun '(lo, hi) => (lo <=? c) && (c <=? hi)) cls.

(** [pattern.sub('', s)] for a pattern that is one character class: the
    scan goes left to right and drops each character the class matches. *)
Fixpoint re_sub_empty (cls : list (N * N)) (s : pystr) : pystr :=
  match s with
  | [] => []
  | c :: rest =>
      if class_matches cls c then re_sub_empty cls rest
      else c :: re_sub_empty cls rest
  end.

Definition _sanitize_string (s : pyval) : pyval :=
  match s with
  | PyStr text => PyStr (re_sub_empty illegal_xml_chars_re text)
  | other => other
  end.

Section Files.

Variable env : Env.

(** [pd.read_csv(file_path)] *)
Definition pd_read_csv (file_path : pystr) (true_values false_values : list pystr)
  : M World DataFrame :=
  (file <- lift_outcome (disk_csv env file_path) ;;
   ret (read_csv true_values false_values file))%py.

(** [df.to_excel(path, index=False)] *)
Definition to_excel (df : DataFrame) (path : pystr) : M World unit :=
  (raise_if (to_excel_error env path df) ;;
   modify (set_xlsx <[path := df]>))%py.

Definition CsvToExcelConverterParser_parse (file_path : pystr) : M World DataFrame :=
  (df <- pd_read_csv file_path [] [] ;;
   let base_name := fst (splitext file_path) in
   let excel_output_path := base_name ++ py ".xlsx" in
   let df := applymap _sanitize_string df in
   to_excel df excel_output_path ;;
   ret df)%py.

(** ** stream_excel_to_csv *)

Variable lower : pystr -> pystr.

Definition logger_info (logger : bool) (msg : log_event) : M World unit :=
  if logger then modify (set_log (fun l => l ++ [msg])) else ret tt.

Definition gc_collect : M World unit := modify (set_gc S).

(** [openpyxl.load_workbook(file_path, read_only=True, data_only=True)] *)
Definition openpyxl_load_workbook (file_path : pystr) : M World workbook :=
  (wb <- lift_outcome (load_workbook env file_path) ;;
   modify (set_open_workbooks S) ;;
   ret wb)%py.

(** [wb.close()] *)
Definition wb_close : M World unit := modify (set_open_workbooks Nat.pred).

Definition file_content (csv_path : pystr) (w : World) : list (list pyval) :=
  default [] (text_files w !! csv_path).

(** [writer.writerow(row)]: one more record at the end of the file. *)
Definition writerow (csv_path : pystr) (row : list pyval) : M World unit :=
  (content <- gets (file_content csv_path) ;;
   raise_if (write_error env content row) ;;
   modify (set_text <[csv_path := content ++ [row]]>))%py.

(** [row and any(cell is not None for cell in row)] *)
Definition row_has_value (row : list pyval) : bool :=
  match row with
  | [] => false
  | _ :: _ => existsb is_not_None row
  end.

(** The [for row in sheet.values] loop. *)
Fixpoint write_rows (csv_path : pystr) (values : list row_event) : M World unit :=
  match values with
  | [] => ret tt
  | RowFail e :: _ => raise e
  | RowOk row :: rest =>
      ((if row_has_value row then writerow csv_path row else ret tt) ;;
       write_rows csv_path rest)%py
  end.

(** [with open(csv_path, 'w', ...) as f: body]: the file is created or
    truncated, and closed when the block is left. *)
Definition with_open_w {A} (csv_path : pystr) (body : M World A) : M World A :=
  (raise_if (open_error env csv_path) ;;
   modify (fun w => set_open_files S (set_text <[csv_path := []]> w)) ;;
   try_finally body (modify (set_open_files Nat.pred)))%py.

(** [df.to_csv(csv_path, index=False, ...)]: the header, then the rows. *)
Definition df_rows (df : DataFrame) : list (list pyval) :=
  let n := foldr Nat.max 0%nat (map (fun c => length (col_values c)) df) in
  map (fun i => map (fun c => default PyNaN (col_values c !! i)) df) (seq 0 n).

Definition to_csv (df : DataFrame) (csv_path : pystr) : M World unit :=
  with_open_w csv_path
    (modify (set_text <[csv_path := map (fun c => PyStr (col_name c)) df :: df_rows df]>)).

Definition zipped_extensions : list pystr := map py [ ".xlsx"; ".xlsm"; ".xltx" ]%string.

Definition takes_streaming_path (file_path : pystr) : bool :=
  str_in (lower (snd (splitext file_path))) zipped_extensions.

(** The body of the [try] statement: [sheet = wb.active], then the
    [with] block around the loop.  A workbook without an active sheet
    gives [None], and [sheet.values] raises inside the block. *)
Definition sheet_body (csv_path : pystr) (wb : workbook) : M World unit :=
  let sheet := wb_active wb in
  with_open_w csv_path
    match sheet with
    | None => raise (AttributeError (py "'NoneType' object has no attribute 'values'"))
    | Some values => write_rows csv_path values
    end.

Definition stream_excel_to_csv (file_path csv_path : pystr) (logger : bool) : M World unit :=
  ((if takes_streaming_path file_path
    then
      logger_info logger (LogStreaming file_path) ;;
      wb <- openpyxl_load_workbook file_path ;;
      try_finally (sheet_body csv_path wb) (wb_close ;; gc_collect)
    else
      logger_info logger (LogStandard file_path) ;;
      df <- lift_outcome (read_excel env file_path) ;;
      to_csv df csv_path ;;
      gc_collect) ;;
   logger_info logger LogCompleted)%py.

End Files.

(** Two resolutions agree: one returns exactly when the other does, and
    then both instances have the same class. *)
Definition same_resolution (r1 r2 : outcome instance) : Prop :=
  (returned r1 <-> returned r2) /\
  (forall i1 i2, r1 = Ret i1 -> r2 = Ret i2 -> inst_class i1 = inst_class i2).

(** ** The remaining parsers *)

(** [PsvParser.parse]: [pd.read_csv(file_path, sep='|')].  The separator
    only matters to the tokenizer; on the fields the call is [read_csv]
    without extra true or false values. *)
Definition PsvParser_parse (file : csv_fields) : DataFrame := read_csv [] [] file.

(** [str.isspace] for one code point, the set [str.strip()] removes. *)
Definition py_isspace (c : N) : bool :=
  ((0x09 <=? c) && (c <=? 0x0D)) || ((0x1C <=? c) && (c <=? 0x20))
  || (c =? 0x85) || (c =? 0xA0) || (c =? 0x1680)
  || ((0x2000 <=? c) && (c <=? 0x200A))
  || (c =? 0x2028) || (c =? 0x2029) || (c =? 0x202F) || (c =? 0x205F)
  || (c =? 0x3000).

Fixpoint lstrip (s : pystr) : pystr :=
  match s with
  | c :: rest => if py_isspace c then lstrip rest else s
  | [] => []
  end.

Definition rstrip (s : pystr) : pystr := rev (lstrip (rev s)).

(** [s.strip()] *)
Definition strip (s : pystr) : pystr := rstrip (lstrip s).

Section Excel.

Variable lower : pystr -> pystr.

(** [pd.read_excel(path, engine=...)]: the engine keyword, when given, and
    the path. *)
Variable pd_read_excel : option pystr -> pystr -> outcome DataFrame.

(** [ExcelParser.parse].  The extension is looked for in the stripped
    path; the reader is handed [file_path] as it came. *)
Definition ExcelParser_parse (file_path : pystr) : outcome DataFrame :=
  let clean_path := strip file_path in
  let ext := lower (snd (splitext clean_path)) in
  if str_in ext (map py [ ".xlsx"; ".xlsm"; ".xltx" ]%string)
  then pd_read_excel (Some (py "openpyxl")) file_path
  else pd_read_excel None file_path.

End Excel.

(** ** Further vocabulary *)

(** Every class the factory holds is a subclass of [Parser]. *)
Definition registered_are_parsers (self : ParserFactory) : Prop :=
  forall k c, _parsers self !! k = Some c -> issubclass_Parser c = true.

(** The rows the reader delivers before its first failure. *)
Fixpoint delivered (values : list row_event) : list (list pyval) :=
  match values with
  | RowOk row :: rest => row :: delivered rest
  | _ => []
  end.

(** The world with its log cleared: what is left is what a caller can
    observe on disk and in the process. *)
Definition forget_log (w : World) : World := set_log (fun _ => []) w.

(** A computation that neither reads nor writes the log. *)
Definition log_independent {A} (c : M World A) : Prop :=
  forall f w, c (set_log f w) = (fst (c w), set_log f (snd (c w))).

(** An environment in which the source file does not exist, and one whose
    spreadsheet writer refuses to write. *)
Definition missing_env : Env :=
  {| disk_csv := fun path => Raise (FileNotFoundError path);
     load_workbook := fun path => Raise (FileNotFoundError path);
     read_excel := fun path => Raise (FileNotFoundError path);
     open_error := fun _ => None;
     write_error := fun _ _ => None;
     to_excel_error := fun _ _ => None |}.


(** Delimited files for the parsers: a column of boolean words, and a
    column of the digits 0 and 1 beside a column of words. *)
Definition word_file : csv_fields :=
  [ (py "ok", map py [ "true"; "0"; "FALSE"; "1" ]%string) ].

Definition bit_file : csv_fields :=
  [ (py "bit", map py [ "1"; "0"; "1" ]%string);
    (py "ok", map py [ "true"; "0"; "1" ]%string) ].

(** An observation that the destination and its handle do not enter. *)
Definition blind_to_destination {X} (f : World -> X) : Prop :=
  (forall g w, f (set_text g w) = f w) /\ (forall g w, f (set_open_files g w) = f w).

(** An environment whose destination cannot be opened, one whose legacy
    reader delivers a table, and a world in which the destination already
    holds an older export. *)
Definition unwritable_env (wb : workbook) : Env :=
  {| disk_csv := fun path => Raise (FileNotFoundError path);
     load_workbook := fun _ => Ret wb;
     read_excel := fun path => Raise (FileNotFoundError path);
     open_error := fun _ => Some (OSError (py "permission denied"));
     write_error := fun _ _ => None;
     to_excel_error := fun _ _ => None |}.

Definition legacy_env (df : DataFrame) : Env :=
  {| disk_csv := fun path => Raise (FileNotFoundError path);
     load_workbook := fun path => Raise (FileNotFoundError path);
     read_excel := fun _ => Ret df;
     open_error := fun _ => None;
     write_error := fun _ _ => None;
     to_excel_error := fun _ _ => None |}.

Definition stale_world : World :=
  {| xlsx_files := ∅;
     text_files := {[ py "out/book.csv" := [ [PyStr (py "old")]; [PyStr (py "rows")] ] ]};
     open_workbooks := 0; open_files := 0; gc_collections := 0; log := [] |}.

(** ** Vocabulary of the design document *)

(** A row with at least one cell that is not null. *)
Definition populated (row : list pyval) : Prop :=
  exists cell, cell ∈ row /\ cell <> PyNone.

#[export] Instance populated_dec row : Decision (populated row).
Proof.
  refine (cast_if (decide (Exists (fun cell => cell <> PyNone) row)));
    unfold populated; rewrite Exists_exists in *; assumption.
Defined.

(** The code points the design document lists as illegal in the
    spreadsheet's XML: U+0000-U+0008, U+000B-U+000C, U+000E-U+001F,
    U+007F-U+0084, U+0086-U+009F, U+FDD0-U+FDDF, U+FFFE and U+FFFF. *)
Definition illegal_in_xml (c : N) : Prop :=
  c <= 0x0008
  \/ (0x000B <= c /\ c <= 0x000C)
  \/ (0x000E <= c /\ c <= 0x001F)
  \/ (0x007F <= c /\ c <= 0x0084)
  \/ (0x0086 <= c /\ c <= 0x009F)
  \/ (0xFDD0 <= c /\ c <= 0xFDDF)
  \/ c = 0xFFFE
  \/ c = 0xFFFF.

#[export] Instance illegal_in_xml_dec c : Decision (illegal_in_xml c).
Proof. unfold illegal_in_xml. apply _. Defined.

(** A cell with the illegal code points taken out of its text; a cell that
    is not text is left alone. *)
Definition without_illegal (v : pyval) : pyval :=
  match v with
  | PyStr text => PyStr (filter (fun c => ~ illegal_in_xml c) text)
  | other => other
  end.

(** Where [CsvToExcelConverterParser.parse] writes the spreadsheet. *)
Definition excel_output_path (file_path : pystr) : pystr :=
  fst (splitext file_path) ++ py ".xlsx".

(** The handles a call may hold. *)
Definition handles (w : World) : nat * nat := (open_workbooks w, open_files w).

(** A computation leaves an observation of the world as it found it,
    whether it returns or raises. *)
Definition preserves {A X} (f : World -> X) (c : M World A) : Prop :=
  forall w, f (snd (c w)) = f w.

(** A world without files or handles, and an environment in which every
    operation on the destination goes through. *)
Definition empty_world : World :=
  {| xlsx_files := ∅; text_files := ∅; open_workbooks := 0; open_files := 0;
     gc_collections := 0; log := [] |}.

Definition quiet_env (file : csv_fields) (wb : workbook) : Env :=
  {| disk_csv := fun _ => Ret file;
     load_workbook := fun _ => Ret wb;
     read_excel := fun path => Raise (FileNotFoundError path);
     open_error := fun _ => None;
     write_error := fun _ _ => None;
     to_excel_error := fun _ _ => None |}.

(** A sheet with a blank row between two populated ones, and a sheet whose
    reader fails after the first row. *)
Definition sheet_with_blank_row : workbook :=
  {| wb_active := Some [ RowOk [PyStr (py "a"); PyInt 1];
                         RowOk [PyNone; PyNone];
                         RowOk [PyNone; PyStr (py "b")] ] |}.

Definition sheet_with_broken_row : workbook :=
  {| wb_active := Some [ RowOk [PyStr (py "a"); PyInt 1];
                         RowFail (OSError (py "truncated archive")) ] |}.

(** A delimited file with a control character and a non-character inside
    a text field. *)
Definition dirty_file : csv_fields :=
  [ (py "n", map py [ "1"; "2" ]%string);
    (py "text", [ [97; 0x01; 98]; [0xFFFE; 99; 0x85] ]) ].

Definition dirty_file_sanitized : DataFrame :=
  [ {| col_name := py "n"; col_dtype := int64; col_values := [PyInt 1; PyInt 2] |};
    {| col_name := py "text"; col_dtype := object_;
       col_values := [PyStr [97; 98]; PyStr [99; 0x85]] |} ].

(** The delimited file of the design document's example: an [id] column
    and a [flag] column holding true, the empty field, FALSE and 1. *)
Definition flag_file : csv_fields :=
  [ (py "id", map py [ "1"; "2"; "3"; "4" ]%string);
    (py "flag", map py [ "true"; ""; "FALSE"; "1" ]%string) ].

(** * Properties *)

(** ** The monad *)

Lemma try_finally_handler_state {St A} (body : M St A) (handler : M St unit)
      (P : St -> Prop) s :
  (forall s1, P (snd (handler s1))) ->
  P (snd (try_finally body handler s)).
Proof.
  intros Hh. unfold try_finally.
  destruct (body s) as [r s1]. specialize (Hh s1).
  destruct (handler s1) as [[u|e] s2]; exact Hh.
Qed.

(** ** ParserFactory *)

Lemma ascii_lower_char_idem c : ascii_lower_char (ascii_lower_char c) = ascii_lower_char c.
Proof.
  unfold ascii_lower_char.
  destruct ((65 <=? c) && (c <=? 90)) eqn:E; [| rewrite E; reflexivity].
  apply andb_true_iff in E as [E1 E2].
  apply N.leb_le in E1. apply N.leb_le in E2.
  replace (c + 32 <=? 90) with false by (symmetry; apply N.leb_gt; lia).
  rewrite andb_false_r. reflexivity.
Qed.

Lemma ascii_lower_idem s : ascii_lower (ascii_lower s) = ascii_lower s.
Proof.
  unfold ascii_lower. induction s as [|c s IH]; simpl; [reflexivity|].
  rewrite ascii_lower_char_idem. f_equal. exact IH.
Qed.

Lemma conforming_inv c :
  conforming c <-> issubclass_Parser c = true /\ call_class c = Ret (InstanceOf c).
Proof.
  unfold conforming, call_class, issubclass_Parser. split.
  - intros [i [Hc Hp]]. destruct (cls_call_raises c); [discriminate|].
    injection Hc as <-. auto.
  - intros [Hp Hc]. exists (InstanceOf c). auto.
Qed.

Lemma Parser_not_conforming : ~ conforming Parser.
Proof. intros H. apply conforming_inv in H as [_ H]. discriminate H. Qed.

Section FactoryProperties.

Variable lower : pystr -> pystr.
Hypothesis lower_idem : forall s, lower (lower s) = lower s.

Lemma register_parser_subclass t c self :
  issubclass_Parser c = true ->
  register_parser lower t c self
  = (Ret tt, {| _parsers := <[lower t := c]> (_parsers self) |}).
Proof. intros H. unfold register_parser. rewrite H. reflexivity. Qed.

Lemma register_parser_not_subclass t c self :
  issubclass_Parser c = false ->
  register_parser lower t c self = (Raise InvalidParserType, self).
Proof. intros H. unfold register_parser. rewrite H. reflexivity. Qed.

Lemma get_parser_lookup t self :
  get_parser lower t self
  = match _parsers self !! lower t with
    | None => (Raise (UnknownFormat t), self)
    | Some cls => (call_class cls, self)
    end.
Proof.
  unfold get_parser, bind, gets. destruct (_parsers self !! lower t); reflexivity.
Qed.

Lemma get_parser_state t self : snd (get_parser lower t self) = self.
Proof. rewrite get_parser_lookup. destruct (_ !! _); reflexivity. Qed.

Lemma get_parser_same_key t t' self :
  lower t = lower t' ->
  same_resolution (fst (get_parser lower t self)) (fst (get_parser lower t' self)).
Proof.
  intros Heq. rewrite !get_parser_lookup, Heq.
  destruct (_parsers self !! lower t') as [cls|]; simpl.
  - split; [reflexivity|]. intros i1 i2 H1 H2. congruence.
  - split.
    + split; intros [i Hi]; discriminate Hi.
    + intros i1 i2 H1. discriminate H1.
Qed.

(** C5: resolution ignores letter case.  [get_parser t] returns exactly
    when [get_parser (lower t)] does, and then both return an instance of
    the same class; so [get_parser "CSV"] and [get_parser "csv"] agree as
    soon as [lower] sends "CSV" to "csv". *)
Theorem get_parser_case_insensitive (self : ParserFactory) (t : pystr) :
  same_resolution (fst (get_parser lower t self))
                  (fst (get_parser lower (lower t) self))
  /\ (lower (py "CSV") = py "csv" ->
      same_resolution (fst (get_parser lower (py "CSV") self))
                      (fst (get_parser lower (py "csv") self))).
Proof.
  split.
  - apply get_parser_same_key. symmetry. apply lower_idem.
  - intros Hcsv. apply get_parser_same_key.
    rewrite <- Hcsv. symmetry. apply lower_idem.
Qed.

(** C6: a tag under which nothing is registered, whatever the letter case
    of the registered key, makes [get_parser] raise the unknown-format
    [ValueError] and leaves the factory as it was. *)
Theorem get_parser_unknown_format (self : ParserFactory) (tag : pystr) :
  (forall k, lower k = lower tag -> _parsers self !! k = None) ->
  get_parser lower tag self = (Raise (UnknownFormat tag), self).
Proof.
  intros Hnone. rewrite get_parser_lookup.
  rewrite (Hnone (lower tag) (lower_idem tag)). reflexivity.
Qed.

(** C7: the later of two registrations under one tag is the one a
    resolution returns; neither registration raises. *)
Theorem register_parser_last_wins (self : ParserFactory) (t : pystr) (A B : pyclass) :
  conforming A -> conforming B ->
  exists self1 self2,
    register_parser lower t A self = (Ret tt, self1) /\
    register_parser lower t B self1 = (Ret tt, self2) /\
    _parsers self2 = <[lower t := B]> (_parsers self) /\
    get_parser lower t self2 = (Ret (InstanceOf B), self2) /\
    (A <> B -> forall i, fst (get_parser lower t self2) = Ret i -> inst_class i <> A).
Proof.
  intros [HA _]%conforming_inv [HB HcB]%conforming_inv.
  set (self1 := {| _parsers := <[lower t := A]> (_parsers self) |}).
  set (self2 := {| _parsers := <[lower t := B]> (_parsers self1) |}).
  assert (Hget : get_parser lower t self2 = (Ret (InstanceOf B), self2)).
  { rewrite get_parser_lookup. unfold self2. simpl.
    rewrite lookup_insert_eq, HcB. reflexivity. }
  exists self1, self2.
  split; [apply register_parser_subclass, HA|].
  split; [apply register_parser_subclass, HB|].
  split; [apply insert_insert_eq|].
  split; [exact Hget|].
  intros Hne i Hi. rewrite Hget in Hi. simpl in Hi. injection Hi as <-.
  simpl. congruence.
Qed.

(** C8, as the module has it: [register_parser] raises its [ValueError]
    exactly for a class that is not a subclass of [Parser], and then the
    factory is unchanged; every subclass of [Parser], in particular every
    conforming constructor, is stored under the lowered tag. *)
Theorem register_parser_rejects_iff_not_subclass
        (self : ParserFactory) (t : pystr) (c : pyclass) :
  (fst (register_parser lower t c self) = Raise InvalidParserType
   <-> issubclass_Parser c = false)
  /\ (issubclass_Parser c = false -> snd (register_parser lower t c self) = self)
  /\ (issubclass_Parser c = true ->
      register_parser lower t c self
      = (Ret tt, {| _parsers := <[lower t := c]> (_parsers self) |}))
  /\ (conforming c ->
      register_parser lower t c self
      = (Ret tt, {| _parsers := <[lower t := c]> (_parsers self) |})).
Proof.
  repeat split.
  - destruct (issubclass_Parser c) eqn:E; [|reflexivity].
    rewrite register_parser_subclass by exact E. discriminate.
  - intros E. rewrite register_parser_not_subclass by exact E. reflexivity.
  - intros E. rewrite register_parser_not_subclass by exact E. reflexivity.
  - apply register_parser_subclass.
  - intros [E _]%conforming_inv. apply register_parser_subclass, E.
Qed.

Lemma register_parser_keys_lowercase self t c :
  keys_lowercase lower self ->
  keys_lowercase lower (snd (register_parser lower t c self)).
Proof.
  intros Hinv. destruct (issubclass_Parser c) eqn:E.
  - rewrite register_parser_subclass by exact E. simpl.
    intros k c' Hk. simpl in Hk.
    destruct (decide (lower t = k)) as [<-|Hne].
    + apply lower_idem.
    + rewrite lookup_insert_ne in Hk by exact Hne. eapply Hinv, Hk.
  - rewrite register_parser_not_subclass by exact E. exact Hinv.
Qed.

(** C9: the keys of the dictionary are lowered tags.  The empty factory
    and the factory the module builds satisfy it, [register_parser] and
    [get_parser] preserve it; a class registered under [t] is what a
    resolution of any [t'] of the same lowered form returns, and
    registering under [t'] replaces what was stored under [t]. *)
Theorem registry_keys_lowercase :
  keys_lowercase lower ParserFactory_init
  /\ keys_lowercase lower (parser_factory lower)
  /\ (forall self t c,
        keys_lowercase lower self ->
        keys_lowercase lower (snd (register_parser lower t c self)))
  /\ (forall self t,
        keys_lowercase lower self ->
        keys_lowercase lower (snd (get_parser lower t self)))
  /\ (forall self t t' C,
        conforming C -> lower t = lower t' ->
        fst (get_parser lower t' (snd (register_parser lower t C self)))
        = Ret (InstanceOf C))
  /\ (forall self t t' C D,
        conforming C -> conforming D -> lower t = lower t' ->
        _parsers (snd (register_parser lower t' C (snd (register_parser lower t D self))))
        = <[lower t := C]> (_parsers self)).
Proof.
  assert (H0 : keys_lowercase lower ParserFactory_init).
  { intros k c Hk. simpl in Hk. rewrite lookup_empty in Hk. discriminate Hk. }
  split; [exact H0|].
  split.
  { unfold parser_factory, register_defaults, bind.
    rewrite (register_parser_subclass (py "csv") CsvParser) by reflexivity.
    rewrite (register_parser_subclass (py "psv") PsvParser) by reflexivity.
    rewrite (register_parser_subclass (py "excel") ExcelParser) by reflexivity.
    apply register_parser_keys_lowercase.
    intros k c Hk. simpl in Hk.
    destruct (decide (lower (py "excel") = k)) as [<-|N1]; [apply lower_idem|].
    rewrite lookup_insert_ne in Hk by exact N1.
    destruct (decide (lower (py "psv") = k)) as [<-|N2]; [apply lower_idem|].
    rewrite lookup_insert_ne in Hk by exact N2.
    destruct (decide (lower (py "csv") = k)) as [<-|N3]; [apply lower_idem|].
    rewrite lookup_insert_ne in Hk by exact N3.
    rewrite lookup_empty in Hk. discriminate Hk. }
  split; [intros self t c; apply register_parser_keys_lowercase|].
  split; [intros self t Hinv; rewrite get_parser_state; exact Hinv|].
  split.
  - intros self t t' C [HC HcC]%conforming_inv Heq.
    rewrite register_parser_subclass by exact HC. simpl.
    rewrite get_parser_lookup. simpl.
    rewrite <- Heq, lookup_insert_eq. simpl. exact HcC.
  - intros self t t' C D [HC _]%conforming_inv [HD _]%conforming_inv Heq.
    rewrite (register_parser_subclass t D) by exact HD. simpl.
    rewrite register_parser_subclass by exact HC. simpl.
    rewrite <- Heq. apply insert_insert_eq.
Qed.

End FactoryProperties.

(** *** The registrations of the module, with ASCII lowering *)

Lemma parser_factory_parsers lower :
  _parsers (parser_factory lower)
  = <[lower (py "csv_to_excel") := CsvToExcelConverterParser]>
      (<[lower (py "excel") := ExcelParser]>
         (<[lower (py "psv") := PsvParser]>
            (<[lower (py "csv") := CsvParser]> ∅))).
Proof. reflexivity. Qed.

Lemma concrete_parser_conforming name : conforming (concrete_parser name).
Proof. exists (InstanceOf (concrete_parser name)). split; reflexivity. Qed.

Lemma get_parser_case_insensitive_witness :
  (forall s, ascii_lower (ascii_lower s) = ascii_lower s)
  /\ same_resolution
       (fst (get_parser ascii_lower (py "CSV") (parser_factory ascii_lower)))
       (fst (get_parser ascii_lower (py "csv") (parser_factory ascii_lower))).
Proof.
  split; [exact ascii_lower_idem|].
  exact (proj1 (get_parser_case_insensitive ascii_lower ascii_lower_idem
                  (parser_factory ascii_lower) (py "CSV"))).
Defined.

Lemma get_parser_unknown_format_witness :
  get_parser ascii_lower (py "unknown_format") (parser_factory ascii_lower)
  = (Raise (UnknownFormat (py "unknown_format")), parser_factory ascii_lower).
Proof.
  apply (get_parser_unknown_format ascii_lower ascii_lower_idem).
  intros k Hk. rewrite parser_factory_parsers.
  rewrite !lookup_insert_ne; [apply lookup_empty | | | |];
    intros <-; vm_compute in Hk; discriminate Hk.
Defined.

Lemma register_parser_last_wins_witness :
  conforming CsvParser /\ conforming PsvParser /\
  exists self1 self2,
    register_parser ascii_lower (py "csv") CsvParser ParserFactory_init = (Ret tt, self1) /\
    register_parser ascii_lower (py "csv") PsvParser self1 = (Ret tt, self2) /\
    _parsers self2 = <[py "csv" := PsvParser]> ∅ /\
    get_parser ascii_lower (py "csv") self2 = (Ret (InstanceOf PsvParser), self2) /\
    (CsvParser <> PsvParser ->
     forall i, fst (get_parser ascii_lower (py "csv") self2) = Ret i ->
               inst_class i <> CsvParser).
Proof.
  split; [apply concrete_parser_conforming|].
  split; [apply concrete_parser_conforming|].
  apply (register_parser_last_wins ascii_lower ParserFactory_init (py "csv")
           CsvParser PsvParser); apply concrete_parser_conforming.
Defined.

(** C8 as the design document words it fails on the abstract base class:
    calling [Parser] raises, so it produces no parser, yet it is a subclass
    of itself and [register_parser] stores it without complaint. *)
Lemma register_parser_accepts_abstract_class :
  ~ conforming Parser
  /\ register_parser ascii_lower (py "abstract") Parser ParserFactory_init
     = (Ret tt, {| _parsers := <[py "abstract" := Parser]> ∅ |})
  /\ ~ (forall t c self,
          fst (register_parser ascii_lower t c self) = Raise InvalidParserType
          <-> ~ conforming c).
Proof.
  split; [exact Parser_not_conforming|].
  split; [reflexivity|].
  intros H.
  destruct (H (py "abstract") Parser ParserFactory_init) as [_ H2].
  specialize (H2 Parser_not_conforming). discriminate H2.
Qed.

Lemma registry_keys_lowercase_witness :
  (forall s, ascii_lower (ascii_lower s) = ascii_lower s)
  /\ keys_lowercase ascii_lower (parser_factory ascii_lower)
  /\ fst (get_parser ascii_lower (py "csv")
            (snd (register_parser ascii_lower (py "CSV") CsvParser ParserFactory_init)))
     = Ret (InstanceOf CsvParser)
  /\ _parsers (snd (register_parser ascii_lower (py "CSV") CsvParser
                      (snd (register_parser ascii_lower (py "csv") PsvParser
                              ParserFactory_init))))
     = <[py "csv" := CsvParser]> ∅.
Proof.
  destruct (registry_keys_lowercase ascii_lower ascii_lower_idem)
    as (_ & Hdefault & _ & _ & Hget & Hreplace).
  split; [exact ascii_lower_idem|].
  split; [exact Hdefault|].
  split.
  - apply (Hget ParserFactory_init (py "CSV") (py "csv") CsvParser);
      [apply concrete_parser_conforming | reflexivity].
  - apply (Hreplace ParserFactory_init (py "csv") (py "CSV") CsvParser PsvParser);
      [apply concrete_parser_conforming | apply concrete_parser_conforming | reflexivity].
Defined.

(** ** CsvToExcelConverterParser *)

Lemma class_matches_illegal c :
  class_matches illegal_xml_chars_re c = true <-> illegal_in_xml c.
Proof.
  unfold class_matches, illegal_xml_chars_re, illegal_in_xml. simpl.
  rewrite !orb_true_iff, !andb_true_iff, !N.leb_le. lia.
Qed.

Lemma re_sub_empty_filter s :
  re_sub_empty illegal_xml_chars_re s = filter (fun c => ~ illegal_in_xml c) s.
Proof.
  induction s as [|c s IH]; [reflexivity|].
  cbn [re_sub_empty]. rewrite filter_cons.
  destruct (class_matches illegal_xml_chars_re c) eqn:E.
  - apply class_matches_illegal in E.
    destruct (decide (~ illegal_in_xml c)) as [Hn|_]; [contradiction|exact IH].
  - destruct (decide (~ illegal_in_xml c)) as [_|Hn].
    + f_equal. exact IH.
    + exfalso. apply Hn. intros Hc. apply class_matches_illegal in Hc. congruence.
Qed.

Lemma sanitize_string_without_illegal v : _sanitize_string v = without_illegal v.
Proof. destruct v; simpl; try reflexivity. f_equal. apply re_sub_empty_filter. Qed.

Lemma applymap_ext f g df :
  (forall v, f v = g v) -> applymap f df = applymap g df.
Proof.
  intros Hfg. unfold applymap. apply map_ext. intros c. f_equal.
  apply map_ext. intros v. apply Hfg.
Qed.

Lemma without_illegal_clean df col s c :
  col ∈ applymap without_illegal df ->
  PyStr s ∈ col_values col -> c ∈ s -> ~ illegal_in_xml c.
Proof.
  unfold applymap. intros Hcol Hs Hc.
  apply list_elem_of_fmap in Hcol as [col0 [-> _]]. simpl in Hs.
  apply list_elem_of_fmap in Hs as [v [Hv _]].
  destruct v; simpl in Hv; try discriminate Hv.
  injection Hv as ->. apply list_elem_of_filter in Hc as [Hc _]. exact Hc.
Qed.

(** What a call that returns has done: read the file, sanitized every
    cell, written the sanitized table and returned that same table. *)
Lemma CsvToExcelConverterParser_parse_inv env file_path w df w' :
  CsvToExcelConverterParser_parse env file_path w = (Ret df, w') ->
  exists file,
    disk_csv env file_path = Ret file
    /\ to_excel_error env (excel_output_path file_path)
         (applymap _sanitize_string (read_csv [] [] file)) = None
    /\ df = applymap _sanitize_string (read_csv [] [] file)
    /\ w' = set_xlsx <[excel_output_path file_path := df]> w.
Proof.
  unfold CsvToExcelConverterParser_parse, pd_read_csv, to_excel, excel_output_path,
    bind, lift_outcome, ret, modify, raise_if, raise.
  destruct (disk_csv env file_path) as [file|e]; [|discriminate].
  destruct (to_excel_error env _ _) as [e|] eqn:E; [discriminate|].
  intros H. injection H as <- <-. exists file. auto.
Qed.

Lemma CsvToExcelConverterParser_parse_returns env file_path file w :
  disk_csv env file_path = Ret file ->
  (forall path df, to_excel_error env path df = None) ->
  exists df w', CsvToExcelConverterParser_parse env file_path w = (Ret df, w').
Proof.
  intros Hfile Hok.
  unfold CsvToExcelConverterParser_parse, pd_read_csv, to_excel,
    bind, lift_outcome, ret, modify, raise_if.
  rewrite Hfile, Hok. eauto.
Qed.

(** C4: the table written to the spreadsheet file is the table read from
    the delimited file with, in every text cell, exactly the listed illegal
    code points removed; the other cells are the ones that were read. *)
Theorem CsvToExcelConverterParser_writes_sanitized_cells
        (env : Env) (file_path : pystr) (file : csv_fields)
        (w w' : World) (df : DataFrame) :
  disk_csv env file_path = Ret file ->
  CsvToExcelConverterParser_parse env file_path w = (Ret df, w') ->
  xlsx_files w' !! excel_output_path file_path
  = Some (applymap without_illegal (read_csv [] [] file))
  /\ (forall v, isinstance_str v = false -> without_illegal v = v)
  /\ (forall text, without_illegal (PyStr text)
                   = PyStr (filter (fun c => ~ illegal_in_xml c) text)).
Proof.
  intros Hfile Hrun.
  apply CsvToExcelConverterParser_parse_inv in Hrun as (file' & Hfile' & _ & Hdf & ->).
  rewrite Hfile in Hfile'. injection Hfile' as <-.
  split; [|split].
  - simpl. rewrite lookup_insert_eq, Hdf. f_equal.
    apply applymap_ext, sanitize_string_without_illegal.
  - intros v Hv. destruct v; try reflexivity. discriminate Hv.
  - reflexivity.
Qed.

(** C10: the table the call returns is the sanitized table, the very one
    it wrote to the spreadsheet file; none of its text cells holds an
    illegal code point. *)
Theorem CsvToExcelConverterParser_returns_sanitized_table
        (env : Env) (file_path : pystr) (file : csv_fields)
        (w w' : World) (df : DataFrame) :
  disk_csv env file_path = Ret file ->
  CsvToExcelConverterParser_parse env file_path w = (Ret df, w') ->
  df = applymap without_illegal (read_csv [] [] file)
  /\ xlsx_files w' !! excel_output_path file_path = Some df
  /\ (forall col s c, col ∈ df -> PyStr s ∈ col_values col -> c ∈ s ->
                      ~ illegal_in_xml c).
Proof.
  intros Hfile Hrun.
  apply CsvToExcelConverterParser_parse_inv in Hrun as (file' & Hfile' & _ & Hdf & ->).
  rewrite Hfile in Hfile'. injection Hfile' as <-.
  assert (Heq : df = applymap without_illegal (read_csv [] [] file)).
  { rewrite Hdf. apply applymap_ext, sanitize_string_without_illegal. }
  split; [exact Heq|]. split.
  - simpl. apply lookup_insert_eq.
  - rewrite Heq. apply without_illegal_clean.
Qed.

Lemma CsvToExcelConverterParser_writes_sanitized_cells_witness :
  exists w',
    CsvToExcelConverterParser_parse (quiet_env dirty_file sheet_with_blank_row)
      (py "in/data.csv") empty_world
    = (Ret dirty_file_sanitized, w')
    /\ xlsx_files w' !! py "in/data.xlsx" = Some dirty_file_sanitized.
Proof.
  exists (snd (CsvToExcelConverterParser_parse
                 (quiet_env dirty_file sheet_with_blank_row)
                 (py "in/data.csv") empty_world)).
  assert (Hrun : CsvToExcelConverterParser_parse
                   (quiet_env dirty_file sheet_with_blank_row)
                   (py "in/data.csv") empty_world
                 = (Ret dirty_file_sanitized,
                    snd (CsvToExcelConverterParser_parse
                           (quiet_env dirty_file sheet_with_blank_row)
                           (py "in/data.csv") empty_world)))
    by (vm_compute; reflexivity).
  split; [exact Hrun|].
  exact (proj1 (CsvToExcelConverterParser_writes_sanitized_cells
                  (quiet_env dirty_file sheet_with_blank_row) (py "in/data.csv")
                  dirty_file empty_world _ dirty_file_sanitized eq_refl Hrun)).
Defined.

Lemma CsvToExcelConverterParser_returns_sanitized_table_witness :
  exists w',
    CsvToExcelConverterParser_parse (quiet_env dirty_file sheet_with_blank_row)
      (py "in/data.csv") empty_world
    = (Ret dirty_file_sanitized, w')
    /\ xlsx_files w' !! py "in/data.xlsx" = Some dirty_file_sanitized
    /\ (forall col s c, col ∈ dirty_file_sanitized -> PyStr s ∈ col_values col ->
                        c ∈ s -> ~ illegal_in_xml c).
Proof.
  exists (snd (CsvToExcelConverterParser_parse
                 (quiet_env dirty_file sheet_with_blank_row)
                 (py "in/data.csv") empty_world)).
  assert (Hrun : CsvToExcelConverterParser_parse
                   (quiet_env dirty_file sheet_with_blank_row)
                   (py "in/data.csv") empty_world
                 = (Ret dirty_file_sanitized,
                    snd (CsvToExcelConverterParser_parse
                           (quiet_env dirty_file sheet_with_blank_row)
                           (py "in/data.csv") empty_world)))
    by (vm_compute; reflexivity).
  split; [exact Hrun|].
  exact (proj2 (CsvToExcelConverterParser_returns_sanitized_table
                  (quiet_env dirty_file sheet_with_blank_row) (py "in/data.csv")
                  dirty_file empty_world _ dirty_file_sanitized eq_refl Hrun)).
Defined.

(** ** stream_excel_to_csv *)

Lemma row_has_value_populated row : row_has_value row = true <-> populated row.
Proof.
  unfold populated. destruct row as [|c row].
  - simpl. split; [discriminate|]. intros [cell [Hin _]]. inversion Hin.
  - cbn [row_has_value]. rewrite existsb_exists. split.
    + intros [cell [Hin Hc]]. exists cell. split.
      * apply list_elem_of_In, Hin.
      * intros ->. discriminate Hc.
    + intros [cell [Hin Hc]]. exists cell. split.
      * apply list_elem_of_In, Hin.
      * destruct cell; try reflexivity. contradiction.
Qed.

Section StreamingProperties.

Variable env : Env.
Variable lower : pystr -> pystr.

Lemma logger_info_eq logger msg w :
  logger_info logger msg w
  = (Ret tt, if logger then set_log (fun l => l ++ [msg]) w else w).
Proof. destruct logger; reflexivity. Qed.

Lemma with_open_w_eq {A} csv_path (body : M World A) w :
  with_open_w env csv_path body w
  = match open_error env csv_path with
    | Some e => (Raise e, w)
    | None =>
        let '(r, w2) := body (set_open_files S (set_text <[csv_path := []]> w)) in
        (r, set_open_files Nat.pred w2)
    end.
Proof.
  unfold with_open_w, bind, raise_if, raise, ret, modify, try_finally.
  destruct (open_error env csv_path); [reflexivity|].
  destruct (body _) as [r w2]. reflexivity.
Qed.

Lemma writerow_eq csv_path row w :
  writerow env csv_path row w
  = match write_error env (file_content csv_path w) row with
    | Some e => (Raise e, w)
    | None => (Ret tt, set_text <[csv_path := file_content csv_path w ++ [row]]> w)
    end.
Proof.
  unfold writerow, bind, gets, raise_if, raise, ret, modify.
  destruct (write_error env _ row); reflexivity.
Qed.

Lemma writerow_preserves_handles csv_path row :
  preserves handles (writerow env csv_path row).
Proof.
  intros w. rewrite writerow_eq. destruct (write_error env _ row); reflexivity.
Qed.

Lemma write_rows_preserves_handles csv_path values :
  preserves handles (write_rows env csv_path values).
Proof.
  induction values as [|[row|e] rest IH]; intros w; try reflexivity.
  cbn [write_rows]. unfold bind.
  destruct (row_has_value row).
  - pose proof (writerow_preserves_handles csv_path row w) as Hw.
    destruct (writerow env csv_path row w) as [[u|e] w1]; simpl in *.
    + rewrite IH. exact Hw.
    + exact Hw.
  - simpl. apply IH.
Qed.

Lemma with_open_w_preserves_handles {A} csv_path (body : M World A) :
  preserves handles body -> preserves handles (with_open_w env csv_path body).
Proof.
  intros Hbody w. rewrite with_open_w_eq.
  destruct (open_error env csv_path); [reflexivity|].
  specialize (Hbody (set_open_files S (set_text <[csv_path := []]> w))).
  destruct (body _) as [r w2]. simpl in *.
  unfold handles in *. simpl in *. injection Hbody as -> ->. reflexivity.
Qed.

(** The loop returns only if the reader delivered every row, and then it
    has appended the populated rows, in order, to the file. *)
Lemma write_rows_returns csv_path values :
  forall w w' content,
    text_files w !! csv_path = Some content ->
    write_rows env csv_path values w = (Ret tt, w') ->
    exists rows,
      values = map RowOk rows
      /\ text_files w' !! csv_path = Some (content ++ filter populated rows).
Proof.
  induction values as [|[row|e] rest IH]; intros w w' content Hc Hrun.
  - injection Hrun as <-. exists []. rewrite app_nil_r. auto.
  - cbn [write_rows] in Hrun. unfold bind in Hrun.
    destruct (row_has_value row) eqn:Hrow.
    + rewrite writerow_eq in Hrun. unfold file_content in Hrun.
      rewrite Hc in Hrun. simpl in Hrun.
      destruct (write_error env content row); [discriminate Hrun|].
      apply IH with (content := content ++ [row]) in Hrun
        as (rows & -> & Hfile); [|simpl; apply lookup_insert_eq].
      exists (row :: rows). split; [reflexivity|].
      rewrite Hfile, filter_cons_True by (apply row_has_value_populated, Hrow).
      rewrite <- app_assoc. reflexivity.
    + simpl in Hrun. apply IH with (content := content) in Hrun
        as (rows & -> & Hfile); [|exact Hc].
      exists (row :: rows). split; [reflexivity|].
      rewrite Hfile, filter_cons_False; [reflexivity|].
      intros Hp. apply row_has_value_populated in Hp. congruence.
  - discriminate Hrun.
Qed.

(** If nothing fails, the loop returns. *)
Lemma write_rows_total csv_path rows :
  (forall content row, write_error env content row = None) ->
  forall w, exists w', write_rows env csv_path (map RowOk rows) w = (Ret tt, w').
Proof.
  intros Hok. induction rows as [|row rows IH]; intros w.
  - exists w. reflexivity.
  - cbn [map write_rows]. unfold bind. destruct (row_has_value row).
    + rewrite writerow_eq, Hok. apply IH.
    + simpl. apply IH.
Qed.

(** The streaming branch once the workbook is open. *)
Lemma stream_excel_to_csv_streaming file_path csv_path logger w wb :
  takes_streaming_path lower file_path = true ->
  load_workbook env file_path = Ret wb ->
  stream_excel_to_csv env lower file_path csv_path logger w
  = let w1 := set_open_workbooks S
                (snd (logger_info logger (LogStreaming file_path) w)) in
    let '(r, w2) := sheet_body env csv_path wb w1 in
    let w3 := set_gc S (set_open_workbooks Nat.pred w2) in
    match r with
    | Ret _ => logger_info logger LogCompleted w3
    | Raise e => (Raise e, w3)
    end.
Proof.
  intros Hext Hload. unfold stream_excel_to_csv. rewrite Hext.
  unfold bind at 1 2. rewrite logger_info_eq. cbn [snd].
  unfold bind at 1, openpyxl_load_workbook.
  unfold bind at 1 2, lift_outcome. rewrite Hload.
  unfold modify at 1, ret at 1. unfold try_finally.
  destruct (sheet_body env csv_path wb _) as [[u|e] w2]; reflexivity.
Qed.

Lemma sheet_body_preserves_handles csv_path wb :
  preserves handles (sheet_body env csv_path wb).
Proof.
  unfold sheet_body. apply with_open_w_preserves_handles. destruct (wb_active wb).
  - apply write_rows_preserves_handles.
  - intros w. reflexivity.
Qed.

(** C2: on the streaming branch, once [load_workbook] has returned a
    workbook, the call leaves no workbook handle behind, whether it
    returns or raises; the destination handle is released as well. *)
Theorem stream_excel_to_csv_closes_workbook
        (file_path csv_path : pystr) (logger : bool) (w : World) (wb : workbook) :
  takes_streaming_path lower file_path = true ->
  load_workbook env file_path = Ret wb ->
  open_workbooks (snd (openpyxl_load_workbook env file_path w)) = S (open_workbooks w)
  /\ open_workbooks (snd (stream_excel_to_csv env lower file_path csv_path logger w))
     = open_workbooks w
  /\ open_files (snd (stream_excel_to_csv env lower file_path csv_path logger w))
     = open_files w.
Proof.
  intros Hext Hload. split.
  { unfold openpyxl_load_workbook, bind, lift_outcome. rewrite Hload. reflexivity. }
  rewrite stream_excel_to_csv_streaming with (wb := wb) by assumption.
  rewrite logger_info_eq. cbn [snd].
  pose proof (sheet_body_preserves_handles csv_path wb
                (set_open_workbooks S
                   (if logger then set_log (fun l => l ++ [LogStreaming file_path]) w
                    else w))) as Hh.
  cbv zeta.
  destruct (sheet_body env csv_path wb _) as [r w2].
  unfold handles in Hh. simpl in Hh.
  assert (Hw2 : open_workbooks w2 = S (open_workbooks w) /\ open_files w2 = open_files w).
  { destruct logger; simpl in Hh; injection Hh as -> ->; auto. }
  destruct Hw2 as [Hwb Hf].
  destruct r as [u|e]; [rewrite logger_info_eq; destruct logger|];
    simpl; rewrite Hwb, Hf; auto.
Qed.

(** C3: when the streaming branch returns, the destination holds one
    record per populated row of the sheet, in the order of the sheet, and
    nothing else; the number of records is the number of populated
    rows. *)
Theorem stream_excel_to_csv_writes_populated_rows
        (file_path csv_path : pystr) (logger : bool) (w w' : World)
        (wb : workbook) (values : list row_event) :
  takes_streaming_path lower file_path = true ->
  load_workbook env file_path = Ret wb ->
  wb_active wb = Some values ->
  stream_excel_to_csv env lower file_path csv_path logger w = (Ret tt, w') ->
  exists rows,
    values = map RowOk rows
    /\ text_files w' !! csv_path = Some (filter populated rows)
    /\ (forall row, row ∈ file_content csv_path w' <-> populated row /\ row ∈ rows)
    /\ length (file_content csv_path w') = length (filter populated rows).
Proof.
  intros Hext Hload Hsheet Hrun.
  rewrite stream_excel_to_csv_streaming with (wb := wb) in Hrun by assumption.
  cbv zeta in Hrun. unfold sheet_body in Hrun.
  rewrite with_open_w_eq, Hsheet in Hrun.
  destruct (open_error env csv_path); [discriminate Hrun|].
  destruct (write_rows env csv_path values _) as [[[]|e] w2] eqn:Hloop;
    [|discriminate Hrun].
  apply write_rows_returns with (content := []) in Hloop
    as (rows & -> & Hfile); [|simpl; apply lookup_insert_eq].
  simpl in Hfile.
  assert (Hw' : text_files w' = text_files w2).
  { rewrite logger_info_eq in Hrun. injection Hrun as <-.
    destruct logger; reflexivity. }
  exists rows. split; [reflexivity|].
  unfold file_content. rewrite Hw', Hfile. simpl.
  split; [reflexivity|]. split; [|reflexivity].
  intros row. apply list_elem_of_filter.
Qed.

End StreamingProperties.

Lemma stream_excel_to_csv_closes_workbook_witness :
  fst (stream_excel_to_csv (quiet_env [] sheet_with_broken_row) ascii_lower
         (py "in/book.XLSX") (py "out/book.csv") true empty_world)
  = Raise (OSError (py "truncated archive"))
  /\ open_workbooks
       (snd (stream_excel_to_csv (quiet_env [] sheet_with_broken_row) ascii_lower
               (py "in/book.XLSX") (py "out/book.csv") true empty_world)) = 0%nat
  /\ open_files
       (snd (stream_excel_to_csv (quiet_env [] sheet_with_broken_row) ascii_lower
               (py "in/book.XLSX") (py "out/book.csv") true empty_world)) = 0%nat.
Proof.
  split; [vm_compute; reflexivity|].
  exact (proj2 (stream_excel_to_csv_closes_workbook
                  (quiet_env [] sheet_with_broken_row) ascii_lower
                  (py "in/book.XLSX") (py "out/book.csv") true empty_world
                  sheet_with_broken_row eq_refl eq_refl)).
Defined.

Lemma stream_excel_to_csv_writes_populated_rows_witness :
  exists w',
    stream_excel_to_csv (quiet_env [] sheet_with_blank_row) ascii_lower
      (py "in/book.xlsx") (py "out/book.csv") false empty_world = (Ret tt, w')
    /\ text_files w' !! py "out/book.csv"
       = Some [ [PyStr (py "a"); PyInt 1]; [PyNone; PyStr (py "b")] ].
Proof.
  exists (snd (stream_excel_to_csv (quiet_env [] sheet_with_blank_row) ascii_lower
                 (py "in/book.xlsx") (py "out/book.csv") false empty_world)).
  assert (Hrun : stream_excel_to_csv (quiet_env [] sheet_with_blank_row) ascii_lower
                   (py "in/book.xlsx") (py "out/book.csv") false empty_world
                 = (Ret tt,
                    snd (stream_excel_to_csv (quiet_env [] sheet_with_blank_row)
                           ascii_lower (py "in/book.xlsx") (py "out/book.csv") false
                           empty_world)))
    by (vm_compute; reflexivity).
  split; [exact Hrun|].
  destruct (stream_excel_to_csv_writes_populated_rows
              (quiet_env [] sheet_with_blank_row) ascii_lower
              (py "in/book.xlsx") (py "out/book.csv") false empty_world _
              sheet_with_blank_row _ eq_refl eq_refl eq_refl Hrun)
    as (rows & Hrows & Hfile & _).
  destruct rows as [|r1 [|r2 [|r3 [|r4 rows]]]]; try discriminate Hrows.
  injection Hrows as <- <- <-. exact Hfile.
Defined.

(** ** CsvParser *)

Lemma try_bool_flex_no_missing tv fv fields :
  forall cells,
    try_bool_flex tv fv fields = Some cells ->
    has_none cells = false ->
    Forall (fun f => is_na f = false) fields
    /\ Forall (fun v => exists b, v = PyBool b) (map (nullable PyBool) cells).
Proof.
  induction fields as [|f fields IH]; intros cells Hrun Hnone.
  - injection Hrun as <-. split; constructor.
  - cbn [try_bool_flex] in Hrun.
    destruct (is_na f) eqn:Hna.
    + destruct (try_bool_flex tv fv fields) as [cells'|]; [|discriminate Hrun].
      injection Hrun as <-. discriminate Hnone.
    + destruct (if str_in f tv then Some (Some true)
                else if str_in f fv then Some (Some false)
                else Some <$> to_boolean f) as [c|] eqn:Hc; [|discriminate Hrun].
      destruct (try_bool_flex tv fv fields) as [cells'|] eqn:Hrest; [|discriminate Hrun].
      injection Hrun as <-.
      assert (Hsome : exists b, c = Some b).
      { destruct (str_in f tv); [injection Hc as <-; eauto|].
        destruct (str_in f fv); [injection Hc as <-; eauto|].
        destruct (to_boolean f) as [b|]; [|discriminate Hc].
        injection Hc as <-. eauto. }
      destruct Hsome as [b ->]. simpl in Hnone.
      destruct (IH cells' eq_refl Hnone) as [H1 H2].
      split; constructor; eauto.
Qed.

(** What [read_csv] calls a boolean column: no field of it is a
    missing-value marker, the empty field included, and every cell is
    [True] or [False].  The filling pass therefore finds nothing to fill. *)
Lemma convert_tokens_bool tv fv fields cells :
  convert_tokens tv fv fields = (bool_, cells) ->
  Forall (fun f => is_na f = false) fields
  /\ Forall (fun v => exists b, v = PyBool b) cells.
Proof.
  unfold convert_tokens, convert_after_int, upcast_int, upcast_bool.
  intros H.
  assert (Hafter :
            match try_double fields with
            | Some cells0 => (float64, cells0)
            | None =>
                match try_bool_flex tv fv fields with
                | Some cells0 =>
                    (if has_none cells0 then object_ else bool_,
                     map (nullable PyBool) cells0)
                | None => (object_, string_convert fields)
                end
            end = (bool_, cells) ->
            Forall (fun f => is_na f = false) fields
            /\ Forall (fun v => exists b, v = PyBool b) cells).
  { clear H. intros H.
    destruct (try_double fields); [discriminate H|].
    destruct (try_bool_flex tv fv fields) as [cells0|] eqn:Hb; [|discriminate H].
    destruct (has_none cells0) eqn:Hn; [discriminate H|].
    injection H as <-. eapply try_bool_flex_no_missing; eassumption. }
  destruct (try_int64 fields) as [ints| |].
  - destruct (has_none ints); discriminate H.
  - exact (Hafter H).
  - destruct (try_uint64 fields _) as [[uints| |] st].
    + destruct (uint64_conflict st || seen_sint st); discriminate H.
    + exact (Hafter H).
    + discriminate H.
Qed.

(** C1 on the design document's own example: the empty field of the
    [flag] column is a missing-value marker before it is a false value, the
    column comes out of [read_csv] as an object column, the filling pass
    only looks at boolean columns, and the cell is still missing when
    [parse] returns. *)
Theorem CsvParser_parse_empty_field_stays_missing :
  CsvParser_parse flag_file
  = [ {| col_name := py "id"; col_dtype := int64;
         col_values := [PyInt 1; PyInt 2; PyInt 3; PyInt 4] |};
      {| col_name := py "flag"; col_dtype := object_;
         col_values := [PyBool true; PyNaN; PyBool false; PyBool true] |} ].
Proof. vm_compute. reflexivity. Qed.

(** * Further properties of the module *)

(** ** ParserFactory *)

Section FactoryFurther.

Variable lower : pystr -> pystr.

(** X1: the factory the module builds.  When [lower] leaves the four
    built-in tags alone, a tag resolves to [CsvParser], [PsvParser],
    [ExcelParser] or [CsvToExcelConverterParser] according to its lowered
    form, and every other tag is refused; the factory is not modified. *)
Theorem parser_factory_resolves_builtins (t : pystr) :
  lower (py "csv") = py "csv" ->
  lower (py "psv") = py "psv" ->
  lower (py "excel") = py "excel" ->
  lower (py "csv_to_excel") = py "csv_to_excel" ->
  (lower t = py "csv" ->
   get_parser lower t (parser_factory lower)
   = (Ret (InstanceOf CsvParser), parser_factory lower))
  /\ (lower t = py "psv" ->
      get_parser lower t (parser_factory lower)
      = (Ret (InstanceOf PsvParser), parser_factory lower))
  /\ (lower t = py "excel" ->
      get_parser lower t (parser_factory lower)
      = (Ret (InstanceOf ExcelParser), parser_factory lower))
  /\ (lower t = py "csv_to_excel" ->
      get_parser lower t (parser_factory lower)
      = (Ret (InstanceOf CsvToExcelConverterParser), parser_factory lower))
  /\ (lower t <> py "csv" -> lower t <> py "psv" -> lower t <> py "excel" ->
      lower t <> py "csv_to_excel" ->
      get_parser lower t (parser_factory lower)
      = (Raise (UnknownFormat t), parser_factory lower)).
Proof.
  intros H1 H2 H3 H4.
  assert (Hlk : forall k,
             _parsers (parser_factory lower) !! k
             = (<[py "csv_to_excel" := CsvToExcelConverterParser]>
                  (<[py "excel" := ExcelParser]>
                     (<[py "psv" := PsvParser]>
                        (<[py "csv" := CsvParser]> ∅))) : gmap pystr pyclass) !! k).
  { intros k. rewrite parser_factory_parsers, H1, H2, H3, H4. reflexivity. }
  repeat split.
  - intros Ht. rewrite get_parser_lookup, Hlk, Ht.
    rewrite !lookup_insert_ne by (intros H; vm_compute in H; discriminate H).
    rewrite lookup_insert_eq. reflexivity.
  - intros Ht. rewrite get_parser_lookup, Hlk, Ht.
    rewrite !lookup_insert_ne by (intros H; vm_compute in H; discriminate H).
    rewrite lookup_insert_eq. reflexivity.
  - intros Ht. rewrite get_parser_lookup, Hlk, Ht.
    rewrite !lookup_insert_ne by (intros H; vm_compute in H; discriminate H).
    rewrite lookup_insert_eq. reflexivity.
  - intros Ht. rewrite get_parser_lookup, Hlk, Ht.
    rewrite lookup_insert_eq. reflexivity.
  - intros N1 N2 N3 N4. rewrite get_parser_lookup, Hlk.
    rewrite !lookup_insert_ne by congruence.
    rewrite lookup_empty. reflexivity.
Qed.

(** X2: a registration under one tag does not change what any tag of a
    different lowered form resolves to. *)
Theorem register_parser_other_tag (self : ParserFactory) (t t' : pystr) (c : pyclass) :
  lower t <> lower t' ->
  fst (get_parser lower t' (snd (register_parser lower t c self)))
  = fst (get_parser lower t' self).
Proof.
  intros Hne. destruct (issubclass_Parser c) eqn:E.
  - rewrite register_parser_subclass by exact E.
    rewrite !get_parser_lookup. cbn [snd _parsers].
    rewrite lookup_insert_ne by exact Hne.
    destruct (_parsers self !! lower t'); reflexivity.
  - rewrite register_parser_not_subclass by exact E. reflexivity.
Qed.

Lemma register_parser_registered_are_parsers self t c :
  registered_are_parsers self ->
  registered_are_parsers (snd (register_parser lower t c self)).
Proof.
  intros Hinv. destruct (issubclass_Parser c) eqn:E.
  - rewrite register_parser_subclass by exact E.
    intros k c' Hk. cbn [snd _parsers] in Hk.
    destruct (decide (lower t = k)) as [<-|Hne].
    + rewrite lookup_insert_eq in Hk. injection Hk as <-. exact E.
    + rewrite lookup_insert_ne in Hk by exact Hne. eapply Hinv, Hk.
  - rewrite register_parser_not_subclass by exact E. exact Hinv.
Qed.

(** X3: the factory only ever holds subclasses of [Parser].  This holds of
    the empty factory and of the one the module builds, every call of
    [register_parser] keeps it, and under it whatever [get_parser] returns
    is an instance of a [Parser] subclass, the one stored under the lowered
    tag. *)
Theorem get_parser_returns_parser_instances :
  registered_are_parsers ParserFactory_init
  /\ registered_are_parsers (parser_factory lower)
  /\ (forall self t c,
        registered_are_parsers self ->
        registered_are_parsers (snd (register_parser lower t c self)))
  /\ (forall self t i,
        registered_are_parsers self ->
        fst (get_parser lower t self) = Ret i ->
        issubclass_Parser (inst_class i) = true
        /\ _parsers self !! lower t = Some (inst_class i)).
Proof.
  assert (H0 : registered_are_parsers ParserFactory_init).
  { intros k c Hk. cbn in Hk. rewrite lookup_empty in Hk. discriminate Hk. }
  split; [exact H0|]. split.
  { unfold parser_factory, register_defaults, bind.
    rewrite (register_parser_subclass lower (py "csv") CsvParser) by reflexivity.
    rewrite (register_parser_subclass lower (py "psv") PsvParser) by reflexivity.
    rewrite (register_parser_subclass lower (py "excel") ExcelParser) by reflexivity.
    apply register_parser_registered_are_parsers.
    apply (register_parser_registered_are_parsers _ (py "excel") ExcelParser).
    apply (register_parser_registered_are_parsers _ (py "psv") PsvParser).
    apply (register_parser_registered_are_parsers _ (py "csv") CsvParser).
    exact H0. }
  split; [intros self t c; apply register_parser_registered_are_parsers|].
  intros self t i Hinv Hget. rewrite get_parser_lookup in Hget.
  destruct (_parsers self !! lower t) as [cls|] eqn:Hk; [|discriminate Hget].
  cbn [fst] in Hget. unfold call_class in Hget.
  destruct (cls_call_raises cls); [discriminate Hget|].
  injection Hget as <-. split; [eapply Hinv, Hk|reflexivity].
Qed.

(** X4: a class that passes the subclass test but whose call raises, like
    the abstract [Parser] itself, is stored, and resolving its tag then
    raises the constructor's own exception, not the unknown-format error;
    the entry stays in the factory. *)
Theorem get_parser_constructor_raises
        (self : ParserFactory) (t t' : pystr) (c : pyclass) (e : exn) :
  issubclass_Parser c = true ->
  cls_call_raises c = Some e ->
  lower t = lower t' ->
  get_parser lower t' (snd (register_parser lower t c self))
  = (Raise e, {| _parsers := <[lower t := c]> (_parsers self) |}).
Proof.
  intros Hsub Hcall Heq. rewrite register_parser_subclass by exact Hsub.
  rewrite get_parser_lookup. cbn [snd _parsers].
  rewrite <- Heq, lookup_insert_eq. unfold call_class. rewrite Hcall. reflexivity.
Qed.

End FactoryFurther.

Lemma parser_factory_resolves_builtins_witness :
  get_parser ascii_lower (py "Excel") (parser_factory ascii_lower)
  = (Ret (InstanceOf ExcelParser), parser_factory ascii_lower)
  /\ get_parser ascii_lower (py "json") (parser_factory ascii_lower)
     = (Raise (UnknownFormat (py "json")), parser_factory ascii_lower).
Proof.
  split.
  - apply (parser_factory_resolves_builtins ascii_lower (py "Excel")
             eq_refl eq_refl eq_refl eq_refl); reflexivity.
  - apply (parser_factory_resolves_builtins ascii_lower (py "json")
             eq_refl eq_refl eq_refl eq_refl);
      intros H; vm_compute in H; discriminate H.
Defined.

Lemma register_parser_other_tag_witness :
  fst (get_parser ascii_lower (py "csv")
         (snd (register_parser ascii_lower (py "PSV") ExcelParser
                 (parser_factory ascii_lower))))
  = Ret (InstanceOf CsvParser).
Proof.
  rewrite (register_parser_other_tag ascii_lower (parser_factory ascii_lower)
             (py "PSV") (py "csv") ExcelParser)
    by (intros H; vm_compute in H; discriminate H).
  vm_compute. reflexivity.
Defined.

Lemma get_parser_constructor_raises_witness :
  get_parser ascii_lower (py "BASE")
    (snd (register_parser ascii_lower (py "base") Parser ParserFactory_init))
  = (Raise (TypeError (py "Can't instantiate abstract class Parser")),
     {| _parsers := <[py "base" := Parser]> ∅ |}).
Proof.
  apply (get_parser_constructor_raises ascii_lower ParserFactory_init
           (py "base") (py "BASE") Parser _ eq_refl eq_refl eq_refl).
Defined.

(** ** os.path.splitext *)

Lemma rfind_from_app c a b : forall i last,
  rfind_from c (a ++ b) i last
  = rfind_from c b (i + Z.of_nat (length a))%Z (rfind_from c a i last).
Proof.
  induction a as [|x a IH]; intros i last.
  - cbn. f_equal. lia.
  - cbn [app rfind_from length]. rewrite IH. f_equal. lia.
Qed.

Lemma rfind_from_notin c s : forall i last, c ∉ s -> rfind_from c s i last = last.
Proof.
  induction s as [|x s IH]; intros i last Hc; [reflexivity|].
  cbn [rfind_from]. apply not_elem_of_cons in Hc as [Hx Hs].
  destruct (N.eqb_spec x c) as [->|_]; [contradiction|]. apply IH, Hs.
Qed.

Lemma rfind_notin c s : c ∉ s -> rfind c s = (-1)%Z.
Proof. apply rfind_from_notin. Qed.

(** The last occurrence: nothing equal to [c] comes after it. *)
Lemma rfind_last c a b : c ∉ b -> rfind c (a ++ c :: b) = Z.of_nat (length a).
Proof.
  intros Hb. unfold rfind. rewrite rfind_from_app. cbn [rfind_from].
  rewrite N.eqb_refl. rewrite rfind_from_notin by exact Hb. lia.
Qed.

Lemma rfind_cases c s :
  ((c ∉ s) /\ rfind c s = (-1)%Z)
  \/ (exists a b, s = a ++ c :: b /\ (c ∉ b) /\ rfind c s = Z.of_nat (length a)).
Proof.
  induction s as [|x s IH].
  - left. split; [apply not_elem_of_nil|reflexivity].
  - destruct IH as [[Hs _]|(a & b & -> & Hb & _)].
    + destruct (decide (x = c)) as [->|Hx].
      * right. exists [], s. split; [reflexivity|]. split; [exact Hs|].
        apply (rfind_last c [] s Hs).
      * left. assert (Hn : c ∉ x :: s) by (apply not_elem_of_cons; auto).
        split; [exact Hn|apply rfind_notin, Hn].
    + right. exists (x :: a), b. split; [reflexivity|]. split; [exact Hb|].
      apply (rfind_last c (x :: a) b Hb).
Qed.

Lemma rfind_bound c s : (-1 <= rfind c s < Z.of_nat (length s))%Z.
Proof.
  destruct (rfind_cases c s) as [[_ ->]|(a & b & -> & _ & ->)].
  - lia.
  - rewrite length_app. cbn [length]. lia.
Qed.

Lemma rfind_nothing_after c s (j : nat) :
  (rfind c s < Z.of_nat j)%Z -> s !! j <> Some c.
Proof.
  intros Hj Hlk.
  destruct (rfind_cases c s) as [[Hs _]|(a & b & -> & Hb & Hr)].
  - apply Hs. eapply list_elem_of_lookup_2, Hlk.
  - rewrite Hr in Hj. rewrite lookup_app_r in Hlk by lia.
    destruct (j - length a)%nat as [|k] eqn:Hk; [lia|].
    cbn in Hlk. apply Hb. eapply list_elem_of_lookup_2, Hlk.
Qed.

Lemma slice_lookup s lo hi (k : nat) :
  (0 <= lo)%Z -> (lo + Z.of_nat k < hi)%Z ->
  slice s lo hi !! k = s !! (Z.to_nat lo + k)%nat.
Proof.
  intros Hlo Hk. unfold slice.
  rewrite lookup_take_lt by lia. apply lookup_drop.
Qed.

(** X5: the two halves [splitext] returns always put the path back
    together, and the extension is either empty or a dot followed by
    characters that are neither dots nor separators. *)
Theorem splitext_join_and_shape (p : pystr) :
  fst (splitext p) ++ snd (splitext p) = p
  /\ (snd (splitext p) = []
      \/ exists e, snd (splitext p) = 46 :: e /\ (46 ∉ e) /\ (47 ∉ e)).
Proof.
  unfold splitext.
  destruct ((rfind 47 p <? rfind 46 p)%Z && _) eqn:E; cbn [fst snd].
  - split; [apply take_drop|]. right.
    apply andb_true_iff in E as [E _]. apply Z.ltb_lt in E.
    pose proof (rfind_bound 47 p) as Hsep.
    destruct (rfind_cases 46 p) as [[_ Hr]|(a & b & Hp & Hb & Hr)]; [lia|].
    rewrite Hr, Nat2Z.id. exists b. split.
    + rewrite Hp, drop_app_length. reflexivity.
    + split; [exact Hb|]. intros H47.
      apply list_elem_of_lookup_1 in H47 as [k Hk].
      apply (rfind_nothing_after 47 p (length a + S k)); [lia|].
      rewrite Hp, lookup_app_r by lia.
      replace (length a + S k - length a)%nat with (S k) by lia. exact Hk.
  - split; [apply app_nil_r|]. left. reflexivity.
Qed.

Lemma splitext_last_dot dir name e :
  46 ∉ e -> 47 ∉ e -> 47 ∉ name -> (exists c, c ∈ name /\ c <> 46) ->
  splitext (dir ++ name ++ 46 :: e) = (dir ++ name, 46 :: e).
Proof.
  intros He46 He47 Hname [c [Hc Hc46]]. unfold splitext.
  assert (Hdot : rfind 46 (dir ++ name ++ 46 :: e) = Z.of_nat (length (dir ++ name))).
  { rewrite app_assoc. apply rfind_last, He46. }
  assert (Hsep : rfind 47 (dir ++ name ++ 46 :: e) = rfind 47 dir).
  { unfold rfind. rewrite rfind_from_app. apply rfind_from_notin.
    rewrite not_elem_of_app, not_elem_of_cons. split; [exact Hname|].
    split; [discriminate|exact He47]. }
  pose proof (rfind_bound 47 dir) as Hb.
  rewrite Hdot, Hsep, Nat2Z.id, length_app in *.
  assert (Hlt : (rfind 47 dir <? Z.of_nat (length dir + length name))%Z = true)
    by (apply Z.ltb_lt; lia).
  rewrite Hlt. cbn [andb].
  apply list_elem_of_lookup_1 in Hc as [k Hk].
  pose proof (lookup_lt_Some _ _ _ Hk) as Hklen.
  assert (Hex : existsb (fun x => negb (x =? 46))
                  (slice (dir ++ name ++ 46 :: e) (rfind 47 dir + 1)
                     (Z.of_nat (length dir + length name))) = true).
  { apply existsb_exists. exists c. split.
    - apply list_elem_of_In.
      apply (list_elem_of_lookup_2 _ (length dir + k - Z.to_nat (rfind 47 dir + 1))%nat).
      rewrite slice_lookup by lia.
      replace (Z.to_nat (rfind 47 dir + 1)
               + (length dir + k - Z.to_nat (rfind 47 dir + 1)))%nat
        with (length dir + k)%nat by lia.
      rewrite lookup_app_r by lia.
      replace (length dir + k - length dir)%nat with k by lia.
      rewrite lookup_app_l by exact Hklen. exact Hk.
    - apply negb_true_iff, N.eqb_neq, Hc46. }
  rewrite Hex. f_equal.
  - rewrite app_assoc, <- length_app. apply take_app_length.
  - rewrite app_assoc, <- length_app. apply drop_app_length.
Qed.

Lemma splitext_no_extension dir dots rest :
  (dir = [] \/ exists d, dir = d ++ [47]) ->
  Forall (fun c => c = 46) dots -> 46 ∉ rest -> 47 ∉ rest ->
  splitext (dir ++ dots ++ rest) = (dir ++ dots ++ rest, []).
Proof.
  intros Hdir Hdots Hr46 Hr47. unfold splitext.
  assert (Hd47 : 47 ∉ dots).
  { intros H. rewrite Forall_forall in Hdots. apply Hdots in H. discriminate H. }
  assert (Hsep : rfind 47 (dir ++ dots ++ rest) = (Z.of_nat (length dir) - 1)%Z).
  { destruct Hdir as [->|[d ->]].
    - cbn [app length]. apply rfind_notin. rewrite not_elem_of_app. auto.
    - rewrite <- app_assoc. cbn [app]. rewrite rfind_last.
      + rewrite length_app. cbn [length]. lia.
      + rewrite not_elem_of_app. auto. }
  rewrite Hsep.
  destruct (Z.ltb_spec (Z.of_nat (length dir) - 1) (rfind 46 (dir ++ dots ++ rest)))
    as [Hlt|Hge]; [|reflexivity].
  cbn [andb].
  destruct dots as [|x dots _] using rev_ind.
  - exfalso. cbn [app] in Hlt.
    destruct (rfind_cases 46 (dir ++ rest)) as [[_ Hr]|(a & b & Hp & Hb & Hr)];
      [pose proof (Nat2Z.is_nonneg (length dir)); lia|].
    rewrite Hr in Hlt.
    assert (Hlk : (dir ++ rest) !! length a = Some 46).
    { rewrite Hp, lookup_app_r by lia. rewrite Nat.sub_diag. reflexivity. }
    destruct (decide (length a < length dir)%nat) as [Hin|Hout].
    + assert (length a = length dir - 1)%nat as Hpos by lia.
      destruct Hdir as [->|[d ->]]; [cbn in Hin; lia|].
      rewrite length_app in Hpos. cbn [length] in Hpos.
      rewrite <- app_assoc, lookup_app_r in Hlk by lia.
      replace (length a - length d)%nat with 0%nat in Hlk by lia.
      discriminate Hlk.
    + rewrite lookup_app_r in Hlk by lia.
      apply Hr46. eapply list_elem_of_lookup_2, Hlk.
  - apply Forall_app in Hdots as [Hdots Hx]. apply Forall_inv in Hx. simpl in Hx. subst x.
    assert (Hdot : rfind 46 (dir ++ (dots ++ [46]) ++ rest)
                   = Z.of_nat (length (dir ++ dots))).
    { rewrite <- (app_assoc dots), app_assoc. cbn [app]. apply rfind_last, Hr46. }
    rewrite Hdot.
    assert (Hex : existsb (fun x => negb (x =? 46))
                    (slice (dir ++ (dots ++ [46]) ++ rest)
                       (Z.of_nat (length dir) - 1 + 1)
                       (Z.of_nat (length (dir ++ dots)))) = false).
    { apply not_true_is_false. intros H. apply existsb_exists in H as [x [Hin Hx]].
      apply list_elem_of_In, list_elem_of_lookup_1 in Hin as [k Hk].
      assert (Hklen : (k < length dots)%nat).
      { apply lookup_lt_Some in Hk. unfold slice in Hk.
        rewrite length_take, length_app in Hk. lia. }
      rewrite length_app in Hk. rewrite slice_lookup in Hk by lia.
      replace (Z.to_nat (Z.of_nat (length dir) - 1 + 1) + k)%nat
        with (length dir + k)%nat in Hk by lia.
      rewrite lookup_app_r in Hk by lia.
      replace (length dir + k - length dir)%nat with k in Hk by lia.
      rewrite <- app_assoc, lookup_app_l in Hk by exact Hklen.
      rewrite Forall_forall in Hdots.
      assert (x = 46) as -> by (eapply Hdots, list_elem_of_lookup_2, Hk).
      discriminate Hx. }
    rewrite Hex. reflexivity.
Qed.

(** X6: the extension starts at the last dot of the file name.  When the
    name before that dot has a character that is not a dot, [splitext]
    cuts there, and [CsvToExcelConverterParser.parse] writes next to the
    source with that extension replaced by [.xlsx]. *)
Theorem splitext_cuts_at_last_dot (dir name e : pystr) :
  46 ∉ e -> 47 ∉ e -> 47 ∉ name -> (exists c, c ∈ name /\ c <> 46) ->
  splitext (dir ++ name ++ 46 :: e) = (dir ++ name, 46 :: e)
  /\ excel_output_path (dir ++ name ++ 46 :: e) = dir ++ name ++ py ".xlsx".
Proof.
  intros H1 H2 H3 H4.
  pose proof (splitext_last_dot dir name e H1 H2 H3 H4) as Hs.
  split; [exact Hs|]. unfold excel_output_path. rewrite Hs. cbn [fst].
  rewrite <- app_assoc. reflexivity.
Qed.

(** X7: a file name without a dot, or whose only dots are leading ones
    (a hidden file), has no extension: [splitext] returns the path and the
    empty string, and the spreadsheet path is the whole source path with
    [.xlsx] appended. *)
Theorem splitext_without_extension (dir dots rest : pystr) :
  (dir = [] \/ exists d, dir = d ++ [47]) ->
  Forall (fun c => c = 46) dots -> 46 ∉ rest -> 47 ∉ rest ->
  splitext (dir ++ dots ++ rest) = (dir ++ dots ++ rest, [])
  /\ excel_output_path (dir ++ dots ++ rest) = (dir ++ dots ++ rest) ++ py ".xlsx".
Proof.
  intros H1 H2 H3 H4.
  pose proof (splitext_no_extension dir dots rest H1 H2 H3 H4) as Hs.
  split; [exact Hs|]. unfold excel_output_path. rewrite Hs. reflexivity.
Qed.

(** A closed decidable statement, settled by evaluating its decision. *)
Ltac by_computing :=
  match goal with
  | |- ?P => apply (bool_decide_eq_true_1 P); vm_compute; reflexivity
  end.

Lemma splitext_cuts_at_last_dot_witness :
  splitext (py "in.d/report.final.CSV") = (py "in.d/report.final", py ".CSV")
  /\ excel_output_path (py "in.d/report.final.CSV") = py "in.d/report.final.xlsx".
Proof.
  apply (splitext_cuts_at_last_dot (py "in.d/") (py "report.final") (py "CSV")).
  - by_computing.
  - by_computing.
  - by_computing.
  - exists 114. split; [by_computing|discriminate].
Defined.

Lemma splitext_without_extension_witness :
  splitext (py "home/.bashrc") = (py "home/.bashrc", [])
  /\ excel_output_path (py "home/.bashrc") = py "home/.bashrc.xlsx".
Proof.
  apply (splitext_without_extension (py "home/") (py ".") (py "bashrc")).
  - right. exists (py "home"). reflexivity.
  - repeat constructor.
  - by_computing.
  - by_computing.
Defined.

(** ** CsvToExcelConverterParser, continued *)

Lemma re_sub_empty_idem cls s :
  re_sub_empty cls (re_sub_empty cls s) = re_sub_empty cls s.
Proof.
  induction s as [|c s IH]; [reflexivity|].
  cbn [re_sub_empty]. destruct (class_matches cls c) eqn:E; [exact IH|].
  cbn [re_sub_empty]. rewrite E, IH. reflexivity.
Qed.

Lemma sanitize_string_idem v : _sanitize_string (_sanitize_string v) = _sanitize_string v.
Proof. destruct v; cbn; try reflexivity. f_equal. apply re_sub_empty_idem. Qed.

(** X8: sanitizing is idempotent and keeps the shape of the table: a
    second pass changes nothing, and the column names, the dtypes and the
    number of cells of every column are those of the table read. *)
Theorem applymap_sanitize_idempotent_and_shape (df : DataFrame) :
  applymap _sanitize_string (applymap _sanitize_string df)
  = applymap _sanitize_string df
  /\ map col_name (applymap _sanitize_string df) = map col_name df
  /\ map col_dtype (applymap _sanitize_string df) = map col_dtype df
  /\ map (fun c => length (col_values c)) (applymap _sanitize_string df)
     = map (fun c => length (col_values c)) df.
Proof.
  unfold applymap. repeat split.
  - rewrite map_map. apply map_ext. intros c. cbn. f_equal.
    rewrite map_map. apply map_ext, sanitize_string_idem.
  - rewrite map_map. reflexivity.
  - rewrite map_map. reflexivity.
  - rewrite map_map. apply map_ext. intros c. cbn. apply length_map.
Qed.

(** X9: what sanitizing does to one text.  The result is the text with
    some characters left out, in the original order; it is the text itself
    exactly when the text has no illegal code point; tab, line feed,
    carriage return and U+0085 are never removed. *)
Theorem re_sub_empty_illegal_sublist (s : pystr) :
  re_sub_empty illegal_xml_chars_re s `sublist_of` s
  /\ (re_sub_empty illegal_xml_chars_re s = s <-> Forall (fun c => ~ illegal_in_xml c) s)
  /\ (forall c, c ∈ [0x09; 0x0A; 0x0D; 0x85] -> c ∈ s ->
                c ∈ re_sub_empty illegal_xml_chars_re s).
Proof.
  rewrite re_sub_empty_filter. split; [apply sublist_filter|]. split.
  - split.
    + intros Heq. rewrite <- Heq. apply Forall_forall.
      intros c Hc. apply list_elem_of_filter in Hc as [Hc _]. exact Hc.
    + intros Hall. induction Hall as [|c s Hc Hall IH]; [reflexivity|].
      rewrite filter_cons_True by exact Hc. f_equal. exact IH.
  - intros c Hc Hin. apply list_elem_of_filter. split; [|exact Hin].
    unfold illegal_in_xml.
    rewrite !elem_of_cons in Hc.
    destruct Hc as [->|[->|[->|[->|Hc]]]]; [lia..|].
    inversion Hc.
Qed.

Section ConverterFurther.

Variable env : Env.



End ConverterFurther.



(** ** CsvParser and PsvParser *)








Lemma read_csv_names tv fv file : map col_name (read_csv tv fv file) = map fst file.
Proof.
  unfold read_csv. rewrite map_map. apply map_ext. intros [name fields].
  destruct (convert_tokens tv fv fields). reflexivity.
Qed.


Lemma read_csv_bool_column tv fv file col :
  col ∈ read_csv tv fv file -> col_dtype col = bool_ ->
  Forall (fun v => exists b, v = PyBool b) (col_values col).
Proof.
  unfold read_csv. intros Hin Hdt.
  apply list_elem_of_fmap in Hin as [[name fields] [-> _]].
  destruct (convert_tokens tv fv fields) as [dt cells] eqn:E. cbn in *. subst dt.
  apply convert_tokens_bool in E as [_ E]. exact E.
Qed.

Lemma fill_booleans_id v cells :
  Forall (fun x => exists b, x = PyBool b) cells ->
  map (fun x => if isna x then v else x) cells = cells.
Proof.
  induction 1 as [|x cells [b ->] _ IH]; [reflexivity|]. cbn. f_equal. exact IH.
Qed.

Lemma dict_get_constant (names : list pystr) (v0 : pyval) k v :
  dict_get (map (fun col => (col, v0)) names) k = Some v -> k ∈ names /\ v = v0.
Proof.
  induction names as [|n names IH]; [discriminate|].
  cbn. case_bool_decide as Hn.
  - intros H. injection H as <-. subst n. split; [left|reflexivity].
  - intros H. apply IH in H as [H1 H2]. split; [right; exact H1|exact H2].
Qed.

Lemma NoDup_map_eq {A B} (f : A -> B) (l : list A) x y :
  NoDup (map f l) -> x ∈ l -> y ∈ l -> f x = f y -> x = y.
Proof.
  induction l as [|a l IH]; intros Hnd Hx Hy Hf; [inversion Hx|].
  cbn in Hnd. apply NoDup_cons in Hnd as [Ha Hnd].
  apply elem_of_cons in Hx as [->|Hx]; apply elem_of_cons in Hy as [->|Hy].
  - reflexivity.
  - exfalso. apply Ha. rewrite Hf. apply (list_elem_of_fmap_2 f), Hy.
  - exfalso. apply Ha. rewrite <- Hf. apply (list_elem_of_fmap_2 f), Hx.
  - apply IH; assumption.
Qed.

Lemma fill_bool_columns_read_csv tv fv file :
  NoDup (map fst file) ->
  fill_bool_columns (read_csv tv fv file) = read_csv tv fv file.
Proof.
  intros Hnd. rewrite <- (read_csv_names tv fv) in Hnd.
  set (df := read_csv tv fv file) in *.
  unfold fill_bool_columns, fillna.
  transitivity (map id df); [|apply map_id]. apply map_ext_in. intros c Hc.
  apply list_elem_of_In in Hc.
  destruct (dict_get _ (col_name c)) as [v|] eqn:E; [|reflexivity].
  apply dict_get_constant in E as [Hname ->].
  unfold select_dtypes_bool_columns in Hname.
  apply list_elem_of_fmap in Hname as [c' [Heq Hc']].
  apply list_elem_of_filter in Hc' as [Hbool Hc'].
  assert (c = c') as <- by (eapply NoDup_map_eq; eassumption).
  rewrite fill_booleans_id by (eapply read_csv_bool_column; eassumption).
  destruct c; reflexivity.
Qed.


(** X13: in the table [CsvParser.parse] returns, a column of dtype bool
    holds [True] and [False] only: no missing cell, no text. *)
Theorem CsvParser_parse_bool_columns_hold_booleans (file : csv_fields) (col : column) :
  col ∈ CsvParser_parse file ->
  col_dtype col = bool_ ->
  Forall (fun v => exists b, v = PyBool b) (col_values col).
Proof.
  unfold CsvParser_parse, fill_bool_columns, fillna. intros Hin Hdt.
  apply list_elem_of_fmap in Hin as [c [-> Hc]].
  destruct (dict_get _ (col_name c)) as [v|] eqn:E.
  - cbn in *. rewrite fill_booleans_id; eapply read_csv_bool_column; eassumption.
  - eapply read_csv_bool_column; eassumption.
Qed.

(** X14: with distinct column names the filling pass of [CsvParser.parse]
    changes nothing: the table returned is the table [read_csv] built, and
    a cell that is missing there is missing in the result. *)
Theorem CsvParser_parse_fill_changes_nothing (file : csv_fields) :
  NoDup (map fst file) ->
  CsvParser_parse file = read_csv CsvParser_true_values CsvParser_false_values file.
Proof. intros Hnd. apply fill_bool_columns_read_csv, Hnd. Qed.

Lemma read_csv_lookup tv fv (file : list (list N * list (list N))) : forall i,
  read_csv tv fv file !! i
  = match file !! i with
    | Some nf =>
        Some {| col_name := fst nf;
                col_dtype := fst (convert_tokens tv fv (snd nf));
                col_values := snd (convert_tokens tv fv (snd nf)) |}
    | None => None
    end.
Proof.
  induction file as [|[name fields] file IH]; intros [|i]; try reflexivity.
  - cbn. destruct (convert_tokens tv fv fields); reflexivity.
  - apply IH.
Qed.

Lemma convert_tokens_numeric tv fv tv' fv' fields dt cells :
  convert_tokens tv fv fields = (dt, cells) ->
  dt ∈ [int64; uint64; float64] ->
  convert_tokens tv' fv' fields = (dt, cells).
Proof.
  assert (Hafter : convert_after_int tv fv fields = (dt, cells) ->
                   dt ∈ [int64; uint64; float64] ->
                   convert_after_int tv' fv' fields = (dt, cells)).
  { unfold convert_after_int, upcast_bool.
    destruct (try_double fields); [auto|].
    intros H Hdt. exfalso.
    destruct (try_bool_flex tv fv fields) as [bs|].
    - injection H as <- _. destruct (has_none bs);
        rewrite !elem_of_cons in Hdt; destruct Hdt as [?|[?|[?|Hn]]];
        try discriminate; inversion Hn.
    - injection H as <- _.
      rewrite !elem_of_cons in Hdt; destruct Hdt as [?|[?|[?|Hn]]];
        try discriminate; inversion Hn. }
  unfold convert_tokens.
  destruct (try_int64 fields); [auto|exact Hafter|].
  destruct (try_uint64 fields _) as [[uints| |] st]; [auto|exact Hafter|auto].
Qed.

(** X15: the true and false values of [CsvParser] only matter to columns
    that are not numeric.  With distinct column names, a column that
    [CsvParser.parse] returns with an integer or float dtype is, cell for
    cell, the column [PsvParser.parse] returns at the same position; a
    column of the digits 0 and 1 is such a column. *)
Theorem CsvParser_parse_numeric_columns_as_PsvParser
        (file : csv_fields) (i : nat) (col : column) :
  NoDup (map fst file) ->
  CsvParser_parse file !! i = Some col ->
  col_dtype col ∈ [int64; uint64; float64] ->
  PsvParser_parse file !! i = Some col.
Proof.
  intros Hnd Hcol Hdt.
  unfold CsvParser_parse in Hcol. cbv zeta in Hcol.
  rewrite fill_bool_columns_read_csv in Hcol by exact Hnd.
  unfold PsvParser_parse. rewrite read_csv_lookup in Hcol. rewrite read_csv_lookup.
  match type of Hcol with
  | match ?x with _ => _ end = _ => destruct x as [[name fields]|]
  end; [|discriminate Hcol].
  injection Hcol as <-. cbn [fst snd col_dtype] in *.
  rewrite (convert_tokens_numeric _ _ [] [] fields _ _ (surjective_pairing _) Hdt).
  reflexivity.
Qed.

Lemma CsvParser_parse_bool_columns_hold_booleans_witness :
  Forall (fun v => exists b, v = PyBool b)
         [PyBool true; PyBool false; PyBool false; PyBool true].
Proof.
  apply (CsvParser_parse_bool_columns_hold_booleans word_file
           {| col_name := py "ok"; col_dtype := bool_;
              col_values := [PyBool true; PyBool false; PyBool false; PyBool true] |}).
  - vm_compute. apply list_elem_of_here.
  - reflexivity.
Defined.

Lemma CsvParser_parse_fill_changes_nothing_witness :
  CsvParser_parse flag_file
  = read_csv CsvParser_true_values CsvParser_false_values flag_file.
Proof.
  apply (CsvParser_parse_fill_changes_nothing flag_file). by_computing.
Defined.

Lemma CsvParser_parse_numeric_columns_as_PsvParser_witness :
  PsvParser_parse bit_file !! 0%nat
  = Some {| col_name := py "bit"; col_dtype := int64;
            col_values := [PyInt 1; PyInt 0; PyInt 1] |}.
Proof.
  apply (CsvParser_parse_numeric_columns_as_PsvParser bit_file 0).
  - by_computing.
  - vm_compute. reflexivity.
  - cbn. apply list_elem_of_here.
Defined.

(** ** stream_excel_to_csv, continued *)

Section StreamingFurther.

Variable env : Env.
Variable lower : pystr -> pystr.

Lemma write_rows_preserves {X} (f : World -> X) csv_path values :
  blind_to_destination f -> preserves f (write_rows env csv_path values).
Proof.
  intros [Ht _]. induction values as [|[row|e] rest IH]; intros w; try reflexivity.
  cbn [write_rows]. unfold bind. destruct (row_has_value row).
  - rewrite writerow_eq. destruct (write_error env _ row); [reflexivity|].
    rewrite IH. apply Ht.
  - cbn. apply IH.
Qed.

Lemma sheet_body_preserves {X} (f : World -> X) csv_path wb :
  blind_to_destination f -> preserves f (sheet_body env csv_path wb).
Proof.
  intros Hf w. pose proof Hf as [Ht Ho]. unfold sheet_body. rewrite with_open_w_eq.
  destruct (open_error env csv_path); [reflexivity|].
  destruct (wb_active wb) as [values|].
  - pose proof (write_rows_preserves f csv_path values Hf
                  (set_open_files S (set_text <[csv_path := []]> w))) as Hw.
    destruct (write_rows env csv_path values _) as [r w2]. cbn in *.
    rewrite Ho, Hw, Ho, Ht. reflexivity.
  - cbn. rewrite !Ho, Ht. reflexivity.
Qed.

Lemma log_blind : blind_to_destination log.
Proof. split; reflexivity. Qed.

Lemma gc_blind : blind_to_destination gc_collections.
Proof. split; reflexivity. Qed.

(** The loop, however it ends: the destination holds what it held plus
    some first populated rows of those the reader delivered. *)
Lemma write_rows_appends_prefix csv_path values : forall w content,
  text_files w !! csv_path = Some content ->
  exists more,
    text_files (snd (write_rows env csv_path values w)) !! csv_path
    = Some (content ++ more)
    /\ more `prefix_of` filter populated (delivered values).
Proof.
  induction values as [|[row|e] rest IH]; intros w content Hc.
  - exists []. rewrite app_nil_r. split; [exact Hc|apply prefix_nil].
  - cbn [write_rows delivered]. unfold bind.
    destruct (row_has_value row) eqn:Hrow.
    + rewrite filter_cons_True by (apply row_has_value_populated, Hrow).
      rewrite writerow_eq. unfold file_content. rewrite Hc. cbn [default from_option id].
      destruct (write_error env content row).
      * exists []. rewrite app_nil_r. split; [exact Hc|apply prefix_nil].
      * destruct (IH (set_text <[csv_path := content ++ [row]]> w) (content ++ [row]))
          as (more & Hfile & Hpre); [cbn; apply lookup_insert_eq|].
        exists (row :: more). rewrite Hfile, <- app_assoc.
        split; [reflexivity|apply prefix_cons, Hpre].
    + rewrite filter_cons_False
        by (intros Hp; apply row_has_value_populated in Hp; congruence).
      cbn. apply IH, Hc.
  - exists []. rewrite app_nil_r. split; [exact Hc|apply prefix_nil].
Qed.

(** X16: when the workbook cannot be opened the call raises the loader's
    exception at once: no handle is taken, the destination is not touched,
    the collector is not run; at most the first progress message was
    logged. *)
Theorem stream_excel_to_csv_load_failure
        (file_path csv_path : pystr) (logger : bool) (w : World) (e : exn) :
  takes_streaming_path lower file_path = true ->
  load_workbook env file_path = Raise e ->
  stream_excel_to_csv env lower file_path csv_path logger w
  = (Raise e,
     if logger then set_log (fun l => l ++ [LogStreaming file_path]) w else w).
Proof.
  intros Hext Hload. unfold stream_excel_to_csv. rewrite Hext.
  unfold bind at 1 2. rewrite logger_info_eq.
  unfold bind, openpyxl_load_workbook, lift_outcome. rewrite Hload. reflexivity.
Qed.

(** X17: the destination is created or truncated before the first row is
    read.  On the streaming branch, once the workbook and the destination
    are open, the destination holds, however the call ends, some first
    populated rows of those the reader delivered, and nothing of what it
    held before. *)
Theorem stream_excel_to_csv_partial_output
        (file_path csv_path : pystr) (logger : bool) (w : World)
        (wb : workbook) (values : list row_event) :
  takes_streaming_path lower file_path = true ->
  load_workbook env file_path = Ret wb ->
  wb_active wb = Some values ->
  open_error env csv_path = None ->
  exists content,
    text_files (snd (stream_excel_to_csv env lower file_path csv_path logger w))
    !! csv_path = Some content
    /\ content `prefix_of` filter populated (delivered values).
Proof.
  intros Hext Hload Hsheet Hopen.
  rewrite stream_excel_to_csv_streaming with (wb := wb) by assumption.
  cbv zeta. unfold sheet_body. rewrite with_open_w_eq, Hsheet, Hopen.
  match goal with
  | |- context [write_rows env csv_path values ?w1] =>
      destruct (write_rows_appends_prefix csv_path values w1 [])
        as (more & Hfile & Hpre); [cbn; apply lookup_insert_eq|];
      destruct (write_rows env csv_path values w1) as [r w2]
  end.
  cbn [snd app] in Hfile. exists more. split; [|exact Hpre].
  destruct r as [u|e]; [rewrite logger_info_eq; destruct logger|]; exact Hfile.
Qed.

(** X18: when the destination cannot be opened, the call raises that
    error; the text files are as before, the workbook is closed and the
    collector has run once. *)
Theorem stream_excel_to_csv_open_failure
        (file_path csv_path : pystr) (logger : bool) (w : World)
        (wb : workbook) (e : exn) :
  takes_streaming_path lower file_path = true ->
  load_workbook env file_path = Ret wb ->
  open_error env csv_path = Some e ->
  fst (stream_excel_to_csv env lower file_path csv_path logger w) = Raise e
  /\ text_files (snd (stream_excel_to_csv env lower file_path csv_path logger w))
     = text_files w
  /\ handles (snd (stream_excel_to_csv env lower file_path csv_path logger w))
     = handles w
  /\ gc_collections (snd (stream_excel_to_csv env lower file_path csv_path logger w))
     = S (gc_collections w).
Proof.
  intros Hext Hload Hopen.
  rewrite stream_excel_to_csv_streaming with (wb := wb) by assumption.
  cbv zeta. unfold sheet_body. rewrite with_open_w_eq, Hopen, logger_info_eq.
  destruct logger; cbn; auto.
Qed.

(** X19: on the streaming branch with the workbook open, the collector
    runs exactly once on every exit, and the log tells how the call ended:
    with a logger, the streaming message is followed by the completion
    message exactly when the call returns; without one the log is left
    alone. *)
Theorem stream_excel_to_csv_collects_and_logs
        (file_path csv_path : pystr) (logger : bool) (w : World) (wb : workbook) :
  takes_streaming_path lower file_path = true ->
  load_workbook env file_path = Ret wb ->
  gc_collections (snd (stream_excel_to_csv env lower file_path csv_path logger w))
  = S (gc_collections w)
  /\ log (snd (stream_excel_to_csv env lower file_path csv_path logger w))
     = log w ++
       (if logger
        then LogStreaming file_path ::
             match fst (stream_excel_to_csv env lower file_path csv_path logger w) with
             | Ret _ => [LogCompleted]
             | Raise _ => []
             end
        else []).
Proof.
  intros Hext Hload.
  rewrite stream_excel_to_csv_streaming with (wb := wb) by assumption.
  cbv zeta. rewrite logger_info_eq. cbn [snd].
  match goal with
  | |- context [sheet_body env csv_path wb ?w1] =>
      pose proof (sheet_body_preserves gc_collections csv_path wb gc_blind w1) as Hgc;
      pose proof (sheet_body_preserves log csv_path wb log_blind w1) as Hlog;
      destruct (sheet_body env csv_path wb w1) as [r w2]
  end.
  cbn [snd] in Hgc, Hlog.
  destruct r as [u|e]; [rewrite logger_info_eq|]; destruct logger; cbn in *;
    rewrite Hgc, Hlog; split; try reflexivity;
    rewrite <- ?app_assoc, ?app_nil_r; reflexivity.
Qed.

(** X20: the legacy branch.  A path whose extension is not one of the
    three zipped ones is read whole; if the reader fails the call raises
    and nothing else has happened; if the reader and the destination
    succeed the call returns, the destination holds the header and the
    rows of the table, no workbook handle was taken and the collector ran
    once. *)
Theorem stream_excel_to_csv_legacy
        (file_path csv_path : pystr) (logger : bool) (w : World) :
  takes_streaming_path lower file_path = false ->
  (forall e, read_excel env file_path = Raise e ->
     stream_excel_to_csv env lower file_path csv_path logger w
     = (Raise e,
        if logger then set_log (fun l => l ++ [LogStandard file_path]) w else w))
  /\ (forall df, read_excel env file_path = Ret df ->
        open_error env csv_path = None ->
        exists w',
          stream_excel_to_csv env lower file_path csv_path logger w = (Ret tt, w')
          /\ text_files w' !! csv_path
             = Some (map (fun c => PyStr (col_name c)) df :: df_rows df)
          /\ handles w' = handles w
          /\ gc_collections w' = S (gc_collections w)).
Proof.
  intros Hext. unfold stream_excel_to_csv. rewrite Hext. split.
  - intros e Hread. unfold bind at 1 2. rewrite logger_info_eq.
    unfold bind, lift_outcome. rewrite Hread. reflexivity.
  - intros df Hread Hopen.
    unfold bind, logger_info, lift_outcome, to_csv, with_open_w, bind, raise_if,
      try_finally, modify, ret, gc_collect, modify.
    rewrite Hread, Hopen.
    destruct logger; eexists; (split; [reflexivity|]);
      cbn [handles text_files open_workbooks open_files gc_collections
           set_text set_gc set_log set_open_files];
      rewrite lookup_insert_eq; auto.
Qed.

End StreamingFurther.

(** *** The logger is only written to *)

Lemma log_independent_ret {A} (a : A) : log_independent (ret a).
Proof. intros f w. reflexivity. Qed.

Lemma log_independent_raise {A} e : log_independent (@raise World A e).
Proof. intros f w. reflexivity. Qed.

Lemma log_independent_lift {A} (r : outcome A) : log_independent (lift_outcome r).
Proof. intros f w. reflexivity. Qed.

Lemma log_independent_raise_if e : log_independent (@raise_if World e).
Proof. destruct e; intros f w; reflexivity. Qed.

Lemma log_independent_bind {A B} (c : M World A) (k : A -> M World B) :
  log_independent c -> (forall a, log_independent (k a)) ->
  log_independent (bind c k).
Proof.
  intros Hc Hk f w. unfold bind. rewrite Hc.
  destruct (c w) as [[a|e] w1]; cbn [fst snd]; [apply Hk|reflexivity].
Qed.

Lemma log_independent_modify (g : World -> World) :
  (forall f w, g (set_log f w) = set_log f (g w)) -> log_independent (modify g).
Proof. intros Hg f w. unfold modify. rewrite Hg. reflexivity. Qed.

Lemma log_independent_gets {A} (h : World -> A) :
  (forall f w, h (set_log f w) = h w) -> log_independent (gets h).
Proof. intros Hh f w. unfold gets. rewrite Hh. reflexivity. Qed.

Lemma log_independent_try_finally {A} (body : M World A) (handler : M World unit) :
  log_independent body -> log_independent handler ->
  log_independent (try_finally body handler).
Proof.
  intros Hb Hh f w. unfold try_finally. rewrite Hb.
  destruct (body w) as [r w1]. cbn [fst snd]. rewrite Hh.
  destruct (handler w1) as [[u|e] w2]; reflexivity.
Qed.

Section LoggerIndependence.

Variable env : Env.
Variable lower : pystr -> pystr.

Lemma log_independent_writerow csv_path row :
  log_independent (writerow env csv_path row).
Proof.
  unfold writerow. apply log_independent_bind.
  - apply log_independent_gets. reflexivity.
  - intros content. apply log_independent_bind; [apply log_independent_raise_if|].
    intros _. apply log_independent_modify. reflexivity.
Qed.

Lemma log_independent_write_rows csv_path values :
  log_independent (write_rows env csv_path values).
Proof.
  induction values as [|[row|e] rest IH].
  - apply log_independent_ret.
  - cbn [write_rows]. apply log_independent_bind.
    + destruct (row_has_value row);
        [apply log_independent_writerow|apply log_independent_ret].
    + intros _. exact IH.
  - apply log_independent_raise.
Qed.

Lemma log_independent_with_open_w {A} csv_path (body : M World A) :
  log_independent body -> log_independent (with_open_w env csv_path body).
Proof.
  intros Hb. unfold with_open_w.
  apply log_independent_bind; [apply log_independent_raise_if|]. intros _.
  apply log_independent_bind; [apply log_independent_modify; reflexivity|]. intros _.
  apply log_independent_try_finally; [exact Hb|].
  apply log_independent_modify. reflexivity.
Qed.

Lemma log_independent_streaming file_path csv_path :
  log_independent
    (wb <- openpyxl_load_workbook env file_path ;;
     try_finally (sheet_body env csv_path wb) (wb_close ;; gc_collect))%py.
Proof.
  apply log_independent_bind.
  - unfold openpyxl_load_workbook.
    apply log_independent_bind; [apply log_independent_lift|]. intros wb.
    apply log_independent_bind; [apply log_independent_modify; reflexivity|].
    intros _. apply log_independent_ret.
  - intros wb. apply log_independent_try_finally.
    + unfold sheet_body. apply log_independent_with_open_w.
      destruct (wb_active wb);
        [apply log_independent_write_rows|apply log_independent_raise].
    + apply log_independent_bind; [apply log_independent_modify; reflexivity|].
      intros _. apply log_independent_modify. reflexivity.
Qed.

Lemma log_independent_legacy file_path csv_path :
  log_independent
    (df <- lift_outcome (read_excel env file_path) ;;
     to_csv env df csv_path ;;
     gc_collect)%py.
Proof.
  apply log_independent_bind; [apply log_independent_lift|]. intros df.
  apply log_independent_bind.
  - unfold to_csv. apply log_independent_with_open_w.
    apply log_independent_modify. reflexivity.
  - intros _. apply log_independent_modify. reflexivity.
Qed.

Lemma logger_wrap (c : M World unit) (msg : log_event) (w : World) :
  log_independent c ->
  let run logger :=
    (logger_info logger msg ;; c ;; logger_info logger LogCompleted)%py in
  fst (run true w) = fst (c w) /\ fst (run false w) = fst (c w)
  /\ forget_log (snd (run true w)) = forget_log (snd (c w))
  /\ forget_log (snd (run false w)) = forget_log (snd (c w)).
Proof.
  intros Hc. cbv zeta. unfold bind, logger_info, modify, ret.
  rewrite Hc. destruct (c w) as [[[]|e] w1]; cbn; auto.
Qed.

(** X21: the logger is written to and never read.  With and without a
    logger the call ends the same way, with the same result or the same
    exception, and leaves the same files, handles and collector count;
    only the log differs. *)
Theorem stream_excel_to_csv_logger_independent
        (file_path csv_path : pystr) (w : World) :
  fst (stream_excel_to_csv env lower file_path csv_path true w)
  = fst (stream_excel_to_csv env lower file_path csv_path false w)
  /\ forget_log (snd (stream_excel_to_csv env lower file_path csv_path true w))
     = forget_log (snd (stream_excel_to_csv env lower file_path csv_path false w)).
Proof.
  assert (Hassoc : forall (a : M World unit) (b c : M World unit) s,
             ((a ;; b) ;; c)%py s = (a ;; b ;; c)%py s).
  { intros a b c s. unfold bind. destruct (a s) as [[u|e] s1]; reflexivity. }
  unfold stream_excel_to_csv. destruct (takes_streaming_path lower file_path).
  - rewrite !Hassoc.
    destruct (logger_wrap _ (LogStreaming file_path) w
                (log_independent_streaming file_path csv_path))
      as (H1 & H2 & H3 & H4).
    cbv zeta in *. rewrite H1, H2, H3, H4. auto.
  - rewrite !Hassoc.
    destruct (logger_wrap _ (LogStandard file_path) w
                (log_independent_legacy file_path csv_path))
      as (H1 & H2 & H3 & H4).
    cbv zeta in *. rewrite H1, H2, H3, H4. auto.
Qed.

End LoggerIndependence.

Lemma stream_excel_to_csv_load_failure_witness :
  stream_excel_to_csv missing_env ascii_lower (py "in/book.xlsx") (py "out/book.csv")
    true stale_world
  = (Raise (FileNotFoundError (py "in/book.xlsx")),
     set_log (fun l => l ++ [LogStreaming (py "in/book.xlsx")]) stale_world).
Proof.
  apply (stream_excel_to_csv_load_failure missing_env ascii_lower
           (py "in/book.xlsx") (py "out/book.csv") true stale_world _ eq_refl eq_refl).
Defined.

Lemma stream_excel_to_csv_partial_output_witness :
  fst (stream_excel_to_csv (quiet_env [] sheet_with_broken_row) ascii_lower
         (py "in/book.xlsx") (py "out/book.csv") false stale_world)
  = Raise (OSError (py "truncated archive"))
  /\ exists content,
       text_files
         (snd (stream_excel_to_csv (quiet_env [] sheet_with_broken_row) ascii_lower
                 (py "in/book.xlsx") (py "out/book.csv") false stale_world))
       !! py "out/book.csv" = Some content
       /\ content `prefix_of` [ [PyStr (py "a"); PyInt 1] ].
Proof.
  split; [vm_compute; reflexivity|].
  exact (stream_excel_to_csv_partial_output (quiet_env [] sheet_with_broken_row)
           ascii_lower (py "in/book.xlsx") (py "out/book.csv") false stale_world
           sheet_with_broken_row _ eq_refl eq_refl eq_refl eq_refl).
Defined.

Lemma stream_excel_to_csv_open_failure_witness :
  fst (stream_excel_to_csv (unwritable_env sheet_with_blank_row) ascii_lower
         (py "in/book.xlsm") (py "out/book.csv") true stale_world)
  = Raise (OSError (py "permission denied"))
  /\ text_files
       (snd (stream_excel_to_csv (unwritable_env sheet_with_blank_row) ascii_lower
               (py "in/book.xlsm") (py "out/book.csv") true stale_world))
     = text_files stale_world
  /\ handles
       (snd (stream_excel_to_csv (unwritable_env sheet_with_blank_row) ascii_lower
               (py "in/book.xlsm") (py "out/book.csv") true stale_world))
     = (0, 0)%nat
  /\ gc_collections
       (snd (stream_excel_to_csv (unwritable_env sheet_with_blank_row) ascii_lower
               (py "in/book.xlsm") (py "out/book.csv") true stale_world))
     = 1%nat.
Proof.
  exact (stream_excel_to_csv_open_failure (unwritable_env sheet_with_blank_row)
           ascii_lower (py "in/book.xlsm") (py "out/book.csv") true stale_world
           sheet_with_blank_row _ eq_refl eq_refl eq_refl).
Defined.

Lemma stream_excel_to_csv_collects_and_logs_witness :
  gc_collections
    (snd (stream_excel_to_csv (quiet_env [] sheet_with_broken_row) ascii_lower
            (py "in/book.xlsx") (py "out/book.csv") true empty_world)) = 1%nat
  /\ log (snd (stream_excel_to_csv (quiet_env [] sheet_with_broken_row) ascii_lower
                 (py "in/book.xlsx") (py "out/book.csv") true empty_world))
     = [LogStreaming (py "in/book.xlsx")].
Proof.
  assert (Hraise : fst (stream_excel_to_csv (quiet_env [] sheet_with_broken_row)
                          ascii_lower (py "in/book.xlsx") (py "out/book.csv") true
                          empty_world)
                   = Raise (OSError (py "truncated archive")))
    by (vm_compute; reflexivity).
  destruct (stream_excel_to_csv_collects_and_logs (quiet_env [] sheet_with_broken_row)
              ascii_lower (py "in/book.xlsx") (py "out/book.csv") true empty_world
              sheet_with_broken_row eq_refl eq_refl) as [Hgc Hlog].
  split; [exact Hgc|]. rewrite Hlog, Hraise. reflexivity.
Defined.

Lemma stream_excel_to_csv_legacy_witness :
  exists w',
    stream_excel_to_csv (legacy_env dirty_file_sanitized) ascii_lower
      (py "in/book.xls") (py "out/book.csv") false stale_world = (Ret tt, w')
    /\ text_files w' !! py "out/book.csv"
       = Some [ [PyStr (py "n"); PyStr (py "text")];
                [PyInt 1; PyStr [97; 98]];
                [PyInt 2; PyStr [99; 0x85]] ]
    /\ handles w' = (0, 0)%nat
    /\ gc_collections w' = 1%nat.
Proof.
  exact (proj2 (stream_excel_to_csv_legacy (legacy_env dirty_file_sanitized)
                  ascii_lower (py "in/book.xls") (py "out/book.csv") false stale_world
                  eq_refl)
           dirty_file_sanitized eq_refl eq_refl).
Defined.

(** ** ExcelParser *)

Lemma lstrip_spaces ws s :
  Forall (fun c => py_isspace c = true) ws -> lstrip (ws ++ s) = lstrip s.
Proof.
  induction 1 as [|c ws Hc _ IH]; [reflexivity|]. cbn. rewrite Hc. exact IH.
Qed.

Lemma lstrip_app s t :
  lstrip (s ++ t) = match lstrip s with [] => lstrip t | _ :: _ => lstrip s ++ t end.
Proof.
  induction s as [|c s IH]; [cbn; destruct (lstrip t); reflexivity|].
  cbn. destruct (py_isspace c); [exact IH|reflexivity].
Qed.

Lemma lstrip_all_spaces ws :
  Forall (fun c => py_isspace c = true) ws -> lstrip ws = [].
Proof. intros H. rewrite <- (app_nil_r ws). rewrite lstrip_spaces by exact H. reflexivity. Qed.

Lemma rstrip_spaces s ws :
  Forall (fun c => py_isspace c = true) ws -> rstrip (s ++ ws) = rstrip s.
Proof.
  intros H. unfold rstrip. rewrite rev_app_distr, lstrip_spaces; [reflexivity|].
  apply Forall_forall. intros c Hc. rewrite Forall_forall in H. apply H.
  apply list_elem_of_In. apply in_rev. apply list_elem_of_In. exact Hc.
Qed.

Lemma strip_surrounding ws1 p ws2 :
  Forall (fun c => py_isspace c = true) ws1 ->
  Forall (fun c => py_isspace c = true) ws2 ->
  strip (ws1 ++ p ++ ws2) = strip p.
Proof.
  intros H1 H2. unfold strip. rewrite lstrip_spaces by exact H1.
  rewrite lstrip_app. destruct (lstrip p) as [|c q].
  - rewrite lstrip_all_spaces by exact H2. reflexivity.
  - apply rstrip_spaces, H2.
Qed.

Lemma strip_fixed p :
  (forall c, head p = Some c -> py_isspace c = false) ->
  (forall c, last p = Some c -> py_isspace c = false) ->
  strip p = p.
Proof.
  intros Hhead Hlast. unfold strip, rstrip.
  assert (Hl : lstrip p = p).
  { destruct p as [|c p]; [reflexivity|]. cbn. rewrite (Hhead c); reflexivity. }
  rewrite Hl.
  assert (Hr : lstrip (rev p) = rev p).
  { destruct (rev p) as [|c q] eqn:E; [reflexivity|]. cbn.
    rewrite (Hlast c); [reflexivity|].
    rewrite <- (rev_involutive p), E. cbn. apply last_snoc. }
  rewrite Hr. apply rev_involutive.
Qed.

Lemma splitext_app p : fst (splitext p) ++ snd (splitext p) = p.
Proof.
  unfold splitext. destruct (_ && _); cbn [fst snd];
    [apply take_drop|apply app_nil_r].
Qed.

Lemma zipped_extension_last e c :
  str_in (ascii_lower e) (map py [ ".xlsx"; ".xlsm"; ".xltx" ]%string) = true ->
  last e = Some c -> py_isspace c = false.
Proof.
  unfold str_in. intros Hin Hlast. apply bool_decide_eq_true_1 in Hin.
  assert (Hl : last (ascii_lower e) = Some (ascii_lower_char c)).
  { unfold ascii_lower. change (map ascii_lower_char e) with (ascii_lower_char <$> e).
    rewrite fmap_last, Hlast. reflexivity. }
  assert (Hc : ascii_lower_char c = 120 \/ ascii_lower_char c = 109).
  { cbn in Hin. rewrite !elem_of_cons in Hin.
    destruct Hin as [Hq|[Hq|[Hq|Hq]]]; [..|inversion Hq];
      rewrite Hq in Hl; cbn in Hl; injection Hl as <-; auto. }
  unfold ascii_lower_char in Hc.
  destruct ((65 <=? c) && (c <=? 90)) eqn:E.
  - apply andb_true_iff in E as [E1 E2]. apply N.leb_le in E1, E2.
    assert (c = 88 \/ c = 77) as [->| ->] by lia; reflexivity.
  - destruct Hc as [->| ->]; reflexivity.
Qed.

Section ExcelFurther.

Variable lower : pystr -> pystr.
Variable pd_read_excel : option pystr -> pystr -> outcome DataFrame.

(** X22: white space around the path does not change the engine
    [ExcelParser.parse] selects, and is not removed from the path the
    reader is given: the call on a padded path is the call on the bare
    path with the reader handed the padded one. *)
Theorem ExcelParser_parse_ignores_surrounding_whitespace (ws1 p ws2 : pystr) :
  Forall (fun c => py_isspace c = true) ws1 ->
  Forall (fun c => py_isspace c = true) ws2 ->
  ExcelParser_parse lower pd_read_excel (ws1 ++ p ++ ws2)
  = ExcelParser_parse lower (fun engine _ => pd_read_excel engine (ws1 ++ p ++ ws2)) p.
Proof.
  intros H1 H2. unfold ExcelParser_parse. cbv zeta.
  rewrite strip_surrounding by assumption.
  destruct (str_in _ _); reflexivity.
Qed.

End ExcelFurther.

(** X23: [stream_excel_to_csv] looks at the path as given.  A path that
    ends in white space never takes the streaming branch, whatever comes
    before; for a path without white space at either end that would take
    it, [ExcelParser.parse] on the padded path still selects openpyxl. *)
Theorem stream_excel_to_csv_does_not_strip
        (pd_read_excel : option pystr -> pystr -> outcome DataFrame)
        (p ws : pystr) :
  ws <> [] ->
  Forall (fun c => py_isspace c = true) ws ->
  takes_streaming_path ascii_lower (p ++ ws) = false
  /\ ((forall c, head p = Some c -> py_isspace c = false) ->
      (forall c, last p = Some c -> py_isspace c = false) ->
      takes_streaming_path ascii_lower p = true ->
      ExcelParser_parse ascii_lower pd_read_excel (p ++ ws)
      = pd_read_excel (Some (py "openpyxl")) (p ++ ws)).
Proof.
  intros Hne Hws. split.
  - unfold takes_streaming_path, zipped_extensions.
    destruct (str_in _ _) eqn:E; [|reflexivity]. exfalso.
    destruct (last ws) as [c|] eqn:Hlast;
      [|apply last_None in Hlast; contradiction].
    assert (Hc : py_isspace c = true).
    { rewrite Forall_forall in Hws. apply Hws.
      apply last_Some in Hlast as [l' ->]. apply elem_of_app. right. left. }
    assert (Hq : last (p ++ ws) = Some c) by (rewrite last_app, Hlast; reflexivity).
    rewrite <- (splitext_app (p ++ ws)), last_app in Hq.
    destruct (last (snd (splitext (p ++ ws)))) as [c'|] eqn:Hext.
    + injection Hq as ->.
      rewrite (zipped_extension_last _ c E Hext) in Hc. discriminate Hc.
    + apply last_None in Hext. rewrite Hext in E. vm_compute in E. discriminate E.
  - intros Hhead Htail Htakes. unfold ExcelParser_parse. cbv zeta.
    pose proof (strip_surrounding [] p ws (Forall_nil_2 _) Hws) as Hs.
    cbn [app] in Hs. rewrite Hs, strip_fixed by assumption.
    unfold takes_streaming_path, zipped_extensions in Htakes. rewrite Htakes.
    reflexivity.
Qed.

Lemma ExcelParser_parse_ignores_surrounding_whitespace_witness :
  ExcelParser_parse ascii_lower
    (fun engine path => Raise (OSError (default [] engine ++ path)))
    (py "  " ++ py "in/Book.XLSM" ++ [0x0A])
  = Raise (OSError (py "openpyxl  in/Book.XLSM" ++ [0x0A])).
Proof.
  etransitivity.
  - apply (ExcelParser_parse_ignores_surrounding_whitespace ascii_lower
             (fun engine path => Raise (OSError (default [] engine ++ path)))
             (py "  ") (py "in/Book.XLSM") [0x0A]); repeat constructor.
  - vm_compute. reflexivity.
Defined.

Lemma stream_excel_to_csv_does_not_strip_witness :
  takes_streaming_path ascii_lower (py "in/book.xlsx ") = false
  /\ ExcelParser_parse ascii_lower (fun engine _ => Raise (OSError (default [] engine)))
       (py "in/book.xlsx ")
     = Raise (OSError (py "openpyxl")).
Proof.
  destruct (stream_excel_to_csv_does_not_strip
              (fun engine _ => Raise (OSError (default [] engine)))
              (py "in/book.xlsx") (py " ")) as [Hstream Hexcel].
  - discriminate.
  - repeat constructor.
  - split; [exact Hstream|]. apply Hexcel.
    + intros c Hc. injection Hc as <-. reflexivity.
    + intros c Hc. vm_compute in Hc. injection Hc as <-. reflexivity.
    + vm_compute. reflexivity.
Defined.
